(** * Hevy Gym Trainer: the plan validators, the generation handler, the
      Clerk webhook and the Convex functions

    A shallow embedding of the TypeScript of [convex/http.ts]
    ([validateWorkoutPlan], [validateDietPlan], the
    [/vapi/generate-program] and [/clerk-webhook] actions),
    [convex/plans.ts] ([createPlan], [getUserPlans]), [convex/users.ts]
    ([syncUser]) and [convex/schema.ts].

    The validators work on untyped values that come out of [JSON.parse], so
    the embedding carries a small model of the JavaScript values involved
    and of the three language operations the validators rely on: property
    access, [String(v)] and [Number(v)], and the truthiness test behind
    [||]. *)

From Stdlib Require Import ZArith List String Ascii Bool Lia.
From Stdlib Require Import DecimalString.
From Stdlib Require Floats.SpecFloat.
Import ListNotations.

Local Open Scope string_scope.
Local Open Scope Z_scope.

(** ** Numbers

    A JavaScript number is an IEEE 754 binary64 value.  [spec_float] of the
    standard library is that set of values (one NaN, signed zeros and
    infinities, sign/mantissa/exponent triples), and its rounding function
    is round-to-nearest, ties-to-even. *)

Module JSNumber.
Import SpecFloat.

Definition number : Type := spec_float.

Definition prec : Z := 53.
Definition emax : Z := 1024.

Definition NaN : number := S754_nan.
Definition Infinity : number := S754_infinity false.

(** The number value for the rational [(-1)^s * num / den]. *)
Definition ofFraction (s : bool) (num den : Z) : number :=
  match num, den with
  | Zpos _, Zpos _ =>
      let '(mz, ez, lz) := SFdiv_core_binary prec emax num 0 den 0 in
      binary_round_aux prec emax s mz ez lz
  | _, _ => S754_zero s
  end.

(** The number value for [(-1)^s * m * 10^e]. *)
Definition ofDecimal (s : bool) (m e : Z) : number :=
  if 0 <=? e then ofFraction s (m * 10 ^ e) 1
  else ofFraction s m (10 ^ (- e)).

Definition ofZ (z : Z) : number :=
  ofDecimal (z <? 0) (Z.abs z) 0.

Definition isNaN (x : number) : bool :=
  match x with S754_nan => true | _ => false end.

Definition isZero (x : number) : bool :=
  match x with S754_zero _ => true | _ => false end.

(** [x > 0], and [x] is a mathematical integer. *)
Definition isPositive (x : number) : bool :=
  match x with
  | S754_finite false _ _ | S754_infinity false => true
  | _ => false
  end.

Definition isInteger (x : number) : bool :=
  match x with
  | S754_zero _ => true
  | S754_finite _ m e =>
      (0 <=? e) || (Zpos m mod 2 ^ (- e) =? 0)
  | _ => false
  end.

Definition eqb (x y : number) : bool :=
  match x, y with
  | S754_zero a, S754_zero b => Bool.eqb a b
  | S754_infinity a, S754_infinity b => Bool.eqb a b
  | S754_nan, S754_nan => true
  | S754_finite a m e, S754_finite b m' e' =>
      Bool.eqb a b && Pos.eqb m m' && Z.eqb e e'
  | _, _ => false
  end.

(** *** [StringToNumber]

    Strings are sequences of code units; the model keeps the code units
    below 256, so the white space to trim is TAB, LF, VT, FF, CR, SP and
    NBSP. *)

Definition isWhiteSpace (c : ascii) : bool :=
  let n := N_of_ascii c in
  ((9 <=? n) && (n <=? 13) || (n =? 32) || (n =? 160))%N.

Fixpoint trimStart (s : string) : string :=
  match s with
  | String c r => if isWhiteSpace c then trimStart r else s
  | EmptyString => s
  end.

Fixpoint rev_append (s acc : string) : string :=
  match s with
  | EmptyString => acc
  | String c r => rev_append r (String c acc)
  end.

Definition trim (s : string) : string :=
  rev_append (trimStart (rev_append (trimStart s) "")) "".

Definition digitValue (radix : Z) (c : ascii) : option Z :=
  let n := Z.of_N (N_of_ascii c) in
  let d :=
    if (48 <=? n) && (n <=? 57) then n - 48
    else if (97 <=? n) && (n <=? 122) then n - 87
    else if (65 <=? n) && (n <=? 90) then n - 55
    else radix in
  if d <? radix then Some d else None.

(** Reads the longest run of digits: its value, its length, the rest. *)
Fixpoint digits (radix : Z) (s : string) (acc : Z) (len : Z)
  : Z * Z * string :=
  match s with
  | String c r =>
      match digitValue radix c with
      | Some d => digits radix r (acc * radix + d) (len + 1)
      | None => (acc, len, s)
      end
  | EmptyString => (acc, len, s)
  end.

Definition signOf (s : string) : bool * string :=
  match s with
  | String "-" r => (true, r)
  | String "+" r => (false, r)
  | _ => (false, s)
  end.

(** [ExponentPart], when present and well formed. *)
Definition exponentPart (s : string) : option Z :=
  match s with
  | EmptyString => Some 0
  | String c r =>
      if (Ascii.eqb c "e" || Ascii.eqb c "E")%bool then
        let '(neg, r') := signOf r in
        match digits 10 r' 0 0 with
        | (v, len, EmptyString) =>
            if 0 <? len then Some (if neg then - v else v) else None
        | _ => None
        end
      else None
  end.

Definition unsignedDecimal (neg : bool) (s : string) : number :=
  if String.eqb s "Infinity" then S754_infinity neg
  else
    let '(ip, ilen, r) := digits 10 s 0 0 in
    let '(fp, flen, r') :=
      match r with
      | String "." t => digits 10 t 0 0
      | _ => (0, 0, r)
      end in
    let dotted := match r with String "." _ => true | _ => false end in
    if (ilen =? 0) && ((flen =? 0) || negb dotted) then NaN
    else
      match exponentPart r' with
      | Some e => ofDecimal neg (ip * 10 ^ flen + fp) (e - flen)
      | None => NaN
      end.

Definition nonDecimal (radix : Z) (s : string) : number :=
  match digits radix s 0 0 with
  | (v, len, EmptyString) => if 0 <? len then ofZ v else NaN
  | _ => NaN
  end.

Definition StringToNumber (str : string) : number :=
  let s := trim str in
  match s with
  | EmptyString => S754_zero false
  | String "0" (String c r) =>
      if (Ascii.eqb c "x" || Ascii.eqb c "X")%bool then nonDecimal 16 r
      else if (Ascii.eqb c "o" || Ascii.eqb c "O")%bool then nonDecimal 8 r
      else if (Ascii.eqb c "b" || Ascii.eqb c "B")%bool then nonDecimal 2 r
      else unsignedDecimal false s
  | _ => let '(neg, r) := signOf s in unsignedDecimal neg r
  end.

(** *** [Number::toString], radix 10

    For a finite [x > 0] the digits are those of the integer [s] with the
    fewest digits [k] such that [s * 10^(n-k)] has number value [x]; among
    several such [s] the one nearest to [x] is taken, the even one on a
    tie, as the specification recommends. *)

(** [x = num / den] for the positive finite number [m * 2^e]. *)
Definition fraction (m : positive) (e : Z) : Z * Z :=
  if 0 <=? e then (Zpos m * 2 ^ e, 1) else (Zpos m, 2 ^ (- e)).

(** [10^p <= num / den]. *)
Definition pow10_le (p num den : Z) : bool :=
  if 0 <=? p then 10 ^ p * den <=? num else den <=? num * 10 ^ (- p).

Fixpoint searchUp (fuel : nat) (n num den : Z) : Z :=
  match fuel with
  | O => n
  | S fuel' =>
      if pow10_le n num den then searchUp fuel' (n + 1) num den else n
  end.

(** The [n] with [10^(n-1) <= num/den < 10^n]. *)
Definition decimalExponent (num den : Z) : Z :=
  let lg := Z.log2 num - Z.log2 den in
  searchUp 8 ((lg - 1) * 30103 / 100000 - 1) num den.

Definition roundsTo (x : number) (s p : Z) : bool :=
  eqb (ofDecimal false s p) x.

(** The digits [s] for a given length [k], if some [s] of that length
    rounds to [x]. *)
Definition digitsOfLength (x : number) (num den n k : Z) : option (Z * Z) :=
  let p := n - k in
  let lo :=
    if 0 <=? p then num / (den * 10 ^ p) else (num * 10 ^ (- p)) / den in
  let hi := lo + 1 in
  (* which of [lo * 10^p] and [hi * 10^p] is nearer to [x] *)
  let c :=
    if 0 <=? p then Z.compare (2 * num) ((2 * lo + 1) * 10 ^ p * den)
    else Z.compare (2 * num * 10 ^ (- p)) ((2 * lo + 1) * den) in
  let lo_first :=
    match c with Lt => true | Gt => false | Eq => Z.even lo end in
  let norm s := if s =? 10 ^ k then (10 ^ (k - 1), n + 1) else (s, n) in
  let attempt s := if roundsTo x s p then Some (norm s) else None in
  match (if lo_first then attempt lo else attempt hi) with
  | Some r => Some r
  | None => if lo_first then attempt hi else attempt lo
  end.

Fixpoint shortest (fuel : nat) (x : number) (num den n k : Z)
  : Z * Z * Z :=
  match fuel with
  | O => (0, n, k)
  | S fuel' =>
      match digitsOfLength x num den n k with
      | Some (s, n') => (s, n', k)
      | None => shortest fuel' x num den n (k + 1)
      end
  end.

Definition decimalString (z : Z) : string :=
  NilZero.string_of_uint (N.to_uint (Z.to_N z)).

Fixpoint zeros (n : nat) : string :=
  match n with O => "" | S n' => String "0" (zeros n') end.

Definition substring_from (i : Z) (s : string) : string :=
  substring (Z.to_nat i) (String.length s - Z.to_nat i)%nat s.

Definition formatDigits (ds : string) (n k : Z) : string :=
  if (k <=? n) && (n <=? 21) then ds ++ zeros (Z.to_nat (n - k))
  else if (0 <? n) && (n <=? 21) then
    substring 0 (Z.to_nat n) ds ++ "." ++ substring_from n ds
  else if (-6 <? n) && (n <=? 0) then
    "0." ++ zeros (Z.to_nat (- n)) ++ ds
  else
    let e := (if 0 <=? n - 1 then "+" else "-")
               ++ decimalString (Z.abs (n - 1)) in
    if k =? 1 then ds ++ "e" ++ e
    else substring 0 1 ds ++ "." ++ substring_from 1 ds ++ "e" ++ e.

Definition NumberToString (x : number) : string :=
  match x with
  | S754_nan => "NaN"
  | S754_zero _ => "0"
  | S754_infinity s => if s then "-Infinity" else "Infinity"
  | S754_finite s m e =>
      let '(num, den) := fraction m e in
      let n := decimalExponent num den in
      let '(d, n', k) :=
        shortest 17 (S754_finite false m e) num den n 1 in
      (if s then "-" else "") ++ formatDigits (decimalString d) n' k
  end.
End JSNumber.

(** ** Values

    What [JSON.parse] can return, together with [undefined], which a
    property read yields for a missing key.  An object is its list of own
    properties; the first binding of a key is the one in effect. *)

Module JS.
Import SpecFloat JSNumber.

#[local] Unset Elimination Schemes.
Inductive value : Type :=
| VUndefined
| VNull
| VBool (b : bool)
| VNum (n : number)
| VStr (s : string)
| VArr (elems : list value)
| VObj (props : list (string * value)).
#[local] Set Elimination Schemes.

(** Induction on values, with the hypothesis available for every element
    of an array and every property of an object. *)
Section Induction.
Variable P : value -> Prop.
Hypothesis HUndefined : P VUndefined.
Hypothesis HNull : P VNull.
Hypothesis HBool : forall b, P (VBool b).
Hypothesis HNum : forall n, P (VNum n).
Hypothesis HStr : forall s, P (VStr s).
Hypothesis HArr : forall l, Forall P l -> P (VArr l).
Hypothesis HObj :
  forall props, Forall (fun kv => P (snd kv)) props -> P (VObj props).

Fixpoint value_ind (v : value) : P v :=
  match v with
  | VUndefined => HUndefined
  | VNull => HNull
  | VBool b => HBool b
  | VNum n => HNum n
  | VStr s => HStr s
  | VArr l =>
      HArr l
        ((fix all (l : list value) : Forall P l :=
            match l with
            | [] => Forall_nil P
            | x :: r => Forall_cons x (value_ind x) (all r)
            end) l)
  | VObj props =>
      HObj props
        ((fix all (l : list (string * value))
            : Forall (fun kv => P (snd kv)) l :=
            match l with
            | [] => Forall_nil _
            | kv :: r => Forall_cons kv (value_ind (snd kv)) (all r)
            end) props)
  end.
End Induction.

(** A computation either returns or throws.  The code never looks at
    what was thrown, so the exception carries nothing. *)
Inductive result (A : Type) : Type :=
| Ok (a : A)
| Throw.
Arguments Ok {A} a.
Arguments Throw {A}.

Definition bind {A B : Type} (m : result A) (k : A -> result B) : result B :=
  match m with
  | Ok a => k a
  | Throw => Throw
  end.

Declare Scope js_scope.
Delimit Scope js_scope with js.
Notation "x <- m ;; k" := (bind m (fun x => k))
  (at level 61, m at next level, right associativity) : js_scope.
Local Open Scope js_scope.

Definition mapM {A B : Type} (f : A -> result B) : list A -> result (list B) :=
  fix go (l : list A) : result (list B) :=
    match l with
    | [] => Ok []
    | x :: r => y <- f x ;; ys <- go r ;; Ok (y :: ys)
    end.

Fixpoint lookup (k : string) (props : list (string * value)) : option value :=
  match props with
  | [] => None
  | (k', v) :: r => if String.eqb k k' then Some v else lookup k r
  end.

Definition hasOwn (props : list (string * value)) (k : string) : bool :=
  match lookup k props with Some _ => true | None => false end.

(** [v.k], for a key [k] that no built-in prototype defines (all the keys
    the code reads are of this kind): a [TypeError] on [null] and
    [undefined], the own property of an object, [undefined] otherwise. *)
Definition Get (v : value) (k : string) : result value :=
  match v with
  | VUndefined | VNull => Throw
  | VObj props =>
      match lookup k props with
      | Some x => Ok x
      | None => Ok VUndefined
      end
  | _ => Ok VUndefined
  end.

(** [ToBoolean]. *)
Definition truthy (v : value) : bool :=
  match v with
  | VUndefined | VNull => false
  | VBool b => b
  | VNum n => negb (isNaN n || isZero n)
  | VStr s => negb (String.eqb s "")
  | VArr _ | VObj _ => true
  end.

(** [a || b], both operands already evaluated ([b] is a literal wherever
    the code uses the operator). *)
Definition or_ (a b : value) : value :=
  if truthy a then a else b.

Definition isArray (v : value) : bool :=
  match v with VArr _ => true | _ => false end.

(** [String(v)].  An array is joined with commas, [null] and [undefined]
    elements giving the empty string.  An object is converted by the
    [toString] found on it: the inherited one answers
    ["[object Object]"]; an own property of that name is parsed data and
    not callable, and then neither is [valueOf] usable, so the conversion
    throws. *)
Fixpoint ToString (v : value) : result string :=
  match v with
  | VUndefined => Ok "undefined"
  | VNull => Ok "null"
  | VBool b => Ok (if b then "true" else "false")
  | VNum n => Ok (NumberToString n)
  | VStr s => Ok s
  | VArr elems =>
      (fix join (l : list value) : result string :=
         match l with
         | [] => Ok ""
         | x :: r =>
             a <- match x with
                  | VUndefined | VNull => Ok ""
                  | _ => ToString x
                  end ;;
             match r with
             | [] => Ok a
             | _ => b <- join r ;; Ok (a ++ "," ++ b)
             end
         end) elems
  | VObj props =>
      if hasOwn props "toString" then Throw else Ok "[object Object]"
  end.

(** [Number(v)].  Arrays and objects go through their string form. *)
Definition ToNumber (v : value) : result number :=
  match v with
  | VUndefined => Ok NaN
  | VNull => Ok (S754_zero false)
  | VBool b => Ok (if b then ofZ 1 else S754_zero false)
  | VNum n => Ok n
  | VStr s => Ok (StringToNumber s)
  | VArr _ | VObj _ => s <- ToString v ;; Ok (StringToNumber s)
  end.

(** [v.map(f)]: only arrays have a [map] to call. *)
Definition callMap (v : value) (f : value -> result value) : result value :=
  match v with
  | VArr elems => l <- mapM f elems ;; Ok (VArr l)
  | _ => Throw
  end.

(** [v[i]] for an array index [i]. *)
Definition Index (v : value) (i : nat) : result value :=
  match v with
  | VUndefined | VNull => Throw
  | VArr elems => Ok (nth i elems VUndefined)
  | VStr s =>
      match String.get i s with
      | Some c => Ok (VStr (String c ""))
      | None => Ok VUndefined
      end
  | VObj props =>
      Get v (NilZero.string_of_uint (Nat.to_uint i))
  | _ => Ok VUndefined
  end.
End JS.

(** ** [convex/http.ts]: the validators *)

Module Validators.
Import JSNumber JS.
Local Open Scope js_scope.

(** The arrow function mapped over [ex.routines]. *)
Definition validateRoutine (r : value) : result value :=
  name0 <- Get r "name" ;;
  name <- ToString (or_ name0 (VStr "Unnamed Routine")) ;;
  sets0 <- Get r "sets" ;;
  sets <- ToNumber sets0 ;;
  reps0 <- Get r "reps" ;;
  reps <- ToNumber reps0 ;;
  duration0 <- Get r "duration" ;;
  duration <- ToNumber duration0 ;;
  description0 <- Get r "description" ;;
  description <- ToString (or_ description0 (VStr "No description")) ;;
  Ok (VObj [("name", VStr name);
            ("sets", or_ (VNum sets) (VNum (ofZ 1)));
            ("reps", or_ (VNum reps) (VNum (ofZ 10)));
            ("duration", or_ (VNum duration) (VNum (ofZ 15)));
            ("description", VStr description)]).

(** The arrow function mapped over [plan.exercises]. *)
Definition validateExercise (ex : value) : result value :=
  day0 <- Get ex "day" ;;
  day <- ToString (or_ day0 (VStr "Unknown")) ;;
  routines0 <- Get ex "routines" ;;
  routines <- callMap (or_ routines0 (VArr [])) validateRoutine ;;
  Ok (VObj [("day", VStr day); ("routines", routines)]).

Definition validateWorkoutPlan (plan : value) : result value :=
  schedule0 <- Get plan "schedule" ;;
  let schedule := if isArray schedule0 then schedule0 else VArr [] in
  exercises0 <- Get plan "exercises" ;;
  exercises <- callMap (or_ exercises0 (VArr [])) validateExercise ;;
  Ok (VObj [("schedule", schedule); ("exercises", exercises)]).

(** [String] and [Number] as the callbacks of [map]. *)
Definition String_ (v : value) : result value :=
  s <- ToString v ;; Ok (VStr s).

Definition Number_ (v : value) : result value :=
  n <- ToNumber v ;; Ok (VNum n).

(** The arrow function mapped over [plan.meals]. *)
Definition validateMeal (m : value) : result value :=
  name0 <- Get m "name" ;;
  name <- ToString (or_ name0 (VStr "Unnamed Meal")) ;;
  foods0 <- Get m "foods" ;;
  foods <- (if isArray foods0 then callMap foods0 String_
            else Ok (VArr [])) ;;
  protein0 <- Get m "protein" ;;
  protein <- (if isArray protein0 then callMap protein0 Number_
              else Ok (VArr [])) ;;
  Ok (VObj [("name", VStr name); ("foods", foods); ("protein", protein)]).

Definition validateDietPlan (plan : value) : result value :=
  dailyCalories0 <- Get plan "dailyCalories" ;;
  dailyCalories <- ToNumber dailyCalories0 ;;
  meals0 <- Get plan "meals" ;;
  meals <- callMap (or_ meals0 (VArr [])) validateMeal ;;
  Ok (VObj [("dailyCalories", or_ (VNum dailyCalories) (VNum (ofZ 2000)));
            ("meals", meals)]).
End Validators.

(** ** [convex/schema.ts], [convex/users.ts], [convex/plans.ts]

    Convex checks the arguments of a mutation against its [args]
    validators before the handler runs, and every inserted document against
    the table definition of the schema; a mismatch throws and the mutation
    leaves the database as it was. *)

Module Convex.
Import JSNumber JS.
Local Open Scope js_scope.

(** The validators of [convex/values] that the schema uses. *)
#[local] Unset Elimination Schemes.
Inductive validator : Type :=
| v_string
| v_number
| v_boolean
| v_array (element : validator)
| v_object (fields : list (string * validator))
| v_optional (inner : validator).
#[local] Set Elimination Schemes.

Definition isOptional (t : validator) : bool :=
  match t with v_optional _ => true | _ => false end.

(** A property holding [undefined] counts as absent. *)
Definition field (k : string) (props : list (string * value)) : option value :=
  match lookup k props with
  | Some VUndefined | None => None
  | Some x => Some x
  end.

Definition declares (fields : list (string * validator)) (k : string) : bool :=
  existsb (fun kt => String.eqb k (fst kt)) fields.

Fixpoint matches (t : validator) (x : value) {struct t} : bool :=
  match t with
  | v_string => match x with VStr _ => true | _ => false end
  | v_number => match x with VNum _ => true | _ => false end
  | v_boolean => match x with VBool _ => true | _ => false end
  | v_array e =>
      match x with VArr l => forallb (matches e) l | _ => false end
  | v_object fields =>
      match x with
      | VObj props =>
          forallb
            (fun kt =>
               match field (fst kt) props with
               | Some y => matches (snd kt) y
               | None => isOptional (snd kt)
               end) fields
          && forallb
               (fun kv =>
                  match snd kv with
                  | VUndefined => true
                  | _ => declares fields (fst kv)
                  end) props
      | _ => false
      end
  | v_optional t' =>
      match x with VUndefined => true | _ => matches t' x end
  end.

(** The [workoutPlan] and [dietPlan] fields of the [plans] table. *)
Definition workoutPlanSchema : validator :=
  v_object
    [("schedule", v_array v_string);
     ("exercises",
      v_array
        (v_object
           [("day", v_string);
            ("routines",
             v_array
               (v_object
                  [("name", v_string);
                   ("sets", v_optional v_number);
                   ("reps", v_optional v_number);
                   ("duration", v_optional v_number);
                   ("description", v_optional v_string);
                   ("exercises", v_optional (v_array v_string))]))]))].

Definition dietPlanSchema : validator :=
  v_object
    [("dailyCalories", v_number);
     ("meals",
      v_array
        (v_object
           [("name", v_string);
            ("foods", v_array v_string);
            ("protein", v_array v_number)]))].

Definition Id : Type := nat.

(** A document of the [users] table, without its system fields. *)
Record User : Type := mkUser {
  clerkId : string;
  email : string;
  user_name : string;
  image : option string
}.

(** A document of the [plans] table, without its system fields. *)
Record Plan : Type := mkPlan {
  userId : string;
  name : string;
  workoutPlan : value;
  dietPlan : value;
  isActive : bool
}.

(** Tables list their documents in creation order. *)
Record DB : Type := mkDB {
  users : list (Id * User);
  plans : list (Id * Plan);
  nextId : Id
}.

Definition insertUser (db : DB) (u : User) : Id * DB :=
  (nextId db,
   mkDB (users db ++ [(nextId db, u)]) (plans db) (S (nextId db))).

Definition insertPlan (db : DB) (p : Plan) : result (Id * DB) :=
  if matches workoutPlanSchema (workoutPlan p)
     && matches dietPlanSchema (dietPlan p)
  then Ok (nextId db,
           mkDB (users db) (plans db ++ [(nextId db, p)]) (S (nextId db)))
  else Throw.

(** [ctx.db.query(users).filter(q => q.eq(q.field(clerkId), id)).first()] *)
Definition firstUserByClerkId (db : DB) (id : string) : option (Id * User) :=
  List.find (fun d => String.eqb (clerkId (snd d)) id) (users db).

(** [syncUser]: its arguments are a [User]'s fields, by its validators. *)
Definition syncUser (db : DB) (args : User) : DB :=
  match firstUserByClerkId db (clerkId args) with
  | Some _ => db
  | None =>
      snd (insertUser db
             (mkUser (clerkId args) (email args) (user_name args)
                (image args)))
  end.

(** The arguments of [createPlan] as a caller passes them. *)
Record CreatePlanArgs : Type := mkCreatePlanArgs {
  arg_userId : value;
  arg_name : value;
  arg_workoutPlan : value;
  arg_dietPlan : value;
  arg_isActive : value
}.

(** The [args] validators of [createPlan]; the structure of the two plan
    objects is the one the schema gives. *)
Definition checkCreatePlanArgs (a : CreatePlanArgs) : result Plan :=
  match arg_userId a, arg_name a, arg_isActive a with
  | VStr u, VStr n, VBool act =>
      if matches workoutPlanSchema (arg_workoutPlan a)
         && matches dietPlanSchema (arg_dietPlan a)
      then Ok (mkPlan u n (arg_workoutPlan a) (arg_dietPlan a) act)
      else Throw
  | _, _, _ => Throw
  end.

(** The handler of [createPlan]. *)
Definition createPlanHandler (db : DB) (args : Plan) : result (Id * DB) :=
  r <- insertPlan db
         (mkPlan (userId args) (name args) (workoutPlan args)
            (dietPlan args) (isActive args)) ;;
  Ok (fst r, snd r).

Definition createPlan (db : DB) (a : CreatePlanArgs) : result (Id * DB) :=
  args <- checkCreatePlanArgs a ;;
  createPlanHandler db args.

(** [getUserPlans]: the plans of a user, newest first. *)
Definition getUserPlans (db : DB) (uid : string) : list (Id * Plan) :=
  rev (filter (fun d => String.eqb (userId (snd d)) uid) (plans db)).
End Convex.

(** ** [convex/http.ts]: the [/vapi/generate-program] action

    The action talks to the generative model and to the database.  The
    world it runs in is the database together with the record of the calls
    it has made; what the request body, the model and [JSON.parse] answer is
    left open. *)

Module GenerateProgram.
Import JSNumber JS Validators Convex.

Inductive Event : Type :=
| GenerateContent (prompt : string)
| RunCreatePlan (args : CreatePlanArgs).

Record World : Type := mkWorld {
  db : DB;
  calls : list Event
}.

Definition isGenerateContent (e : Event) : bool :=
  match e with GenerateContent _ => true | RunCreatePlan _ => false end.

(** The body of [JSON.stringify]'s argument, and the status. *)
Record Response : Type := mkResponse {
  status : Z;
  success : bool;
  planId : option Id
}.

(** An action step returns or throws, and leaves a world either way. *)
Definition M (A : Type) : Type := World -> result A * World.

Definition ret {A : Type} (a : A) : M A := fun w => (Ok a, w).

Definition bindM {A B : Type} (m : M A) (k : A -> M B) : M B :=
  fun w =>
    match m w with
    | (Ok a, w') => k a w'
    | (Throw, w') => (Throw, w')
    end.

Definition lift {A : Type} (r : result A) : M A := fun w => (r, w).

Declare Scope action_scope.
Delimit Scope action_scope with action.
Notation "x <~ m ;; k" := (bindM m (fun x => k))
  (at level 61, m at next level, right associativity) : action_scope.

(** ['] stands for the double quote in the text below. *)
Fixpoint withQuotes (s : string) : string :=
  match s with
  | EmptyString => EmptyString
  | String c r =>
      String (if Ascii.eqb c "'" then ascii_of_nat 34 else c) (withQuotes r)
  end.

Definition newline : string := String (ascii_of_nat 10) "".

Definition workoutPromptText (age fitness_goal weight : string) : string :=
  "Create a workout plan for a " ++ age ++ "-year-old aiming for "
    ++ fitness_goal ++ "." ++ newline
    ++ "        Weight: " ++ weight ++ ". Return ONLY JSON:" ++ newline
    ++ withQuotes "        { 'schedule': ['Day1', 'Day2'], 'exercises': [{'day': 'Day1', 'routines': [{'name': 'Squats', 'sets': 3, 'reps': 10, 'duration': 5, 'description': '...'}]}] }".

Definition dietPromptText (fitness_goal : string) : string :=
  "Create a diet plan for " ++ fitness_goal ++ "." ++ newline
    ++ "        Return ONLY JSON:" ++ newline
    ++ withQuotes "        { 'dailyCalories': 2000, 'meals': [{'name': 'Breakfast', 'foods': ['Eggs'], 'protein': [12]}] }".

Section Action.
(** What [request.json()] gives. *)
Variable request_json : result value.
(** The model: the [n]-th call of a request, with a prompt, throws or
    returns a result whose [response.text()] throws or gives a text. *)
Variable generateContent : nat -> string -> result (result string).
Variable JSON_parse : string -> result value.

Definition callGenerateContent (n : nat) (prompt : string)
  : M (result string) :=
  fun w =>
    (generateContent n prompt,
     mkWorld (db w) (calls w ++ [GenerateContent prompt])%list).

(** [ctx.runMutation(api.plans.createPlan, args)]. *)
Definition runCreatePlan (args : CreatePlanArgs) : M Id :=
  fun w =>
    let log := (calls w ++ [RunCreatePlan args])%list in
    match createPlan (db w) args with
    | Ok (id, db') => (Ok id, mkWorld db' log)
    | Throw => (Throw, mkWorld (db w) log)
    end.

Local Open Scope js_scope.
Local Open Scope action_scope.

Definition tryBlock : M Response :=
  payload <~ lift request_json ;;
  user_id <~ lift (Get payload "user_id") ;;
  age <~ lift (Get payload "age") ;;
  weight <~ lift (Get payload "weight") ;;
  fitness_goal <~ lift (Get payload "fitness_goal") ;;
  workoutPrompt <~ lift (a <- ToString age ;;
                         g <- ToString fitness_goal ;;
                         w <- ToString weight ;;
                         Ok (workoutPromptText a g w)) ;;
  dietPrompt <~ lift (g <- ToString fitness_goal ;;
                      Ok (dietPromptText g)) ;;
  workoutResult <~ callGenerateContent 0 workoutPrompt ;;
  dietResult <~ callGenerateContent 1 dietPrompt ;;
  workoutText <~ lift workoutResult ;;
  workoutJson <~ lift (JSON_parse workoutText) ;;
  workoutPlan <~ lift (validateWorkoutPlan workoutJson) ;;
  dietText <~ lift dietResult ;;
  dietJson <~ lift (JSON_parse dietText) ;;
  dietPlan <~ lift (validateDietPlan dietJson) ;;
  name <~ lift (g <- ToString fitness_goal ;; Ok (g ++ " Plan")) ;;
  planId <~ runCreatePlan
              (mkCreatePlanArgs user_id (VStr name) workoutPlan dietPlan
                 (VBool true)) ;;
  ret (mkResponse 200 true (Some planId)).

Definition handler : World -> Response * World :=
  fun w =>
    match tryBlock w with
    | (Ok r, w') => (r, w')
    | (Throw, w') => (mkResponse 500 false None, w')
    end.
End Action.
End GenerateProgram.

(** ** Predicates on inputs and on results

    Executable descriptions of the values the statements below talk
    about. *)

Module Shapes.
Import JSNumber JS Validators.

Definition nullish (v : value) : bool :=
  match v with VUndefined | VNull => true | _ => false end.

(** [v.k] where the read cannot throw. *)
Definition prop (v : value) (k : string) : value :=
  match Get v k with Ok x => x | Throw => VUndefined end.

Definition elems (v : value) : list value :=
  match v with VArr l => l | _ => [] end.

(** No object with a [toString] property of its own, at any depth of
    array nesting: the values [String] and [Number] accept. *)
Fixpoint plain (v : value) : bool :=
  match v with
  | VArr l => forallb plain l
  | VObj props => negb (hasOwn props "toString")
  | _ => true
  end.

(** Falsy, or an array whose entries all satisfy [ok]. *)
Definition arrayOrFalsy (ok : value -> bool) (v : value) : bool :=
  match v with
  | VArr l => forallb ok l
  | _ => negb (truthy v)
  end.

Definition routineInputOk (r : value) : bool :=
  negb (nullish r)
  && plain (prop r "name") && plain (prop r "sets")
  && plain (prop r "reps") && plain (prop r "duration")
  && plain (prop r "description").

Definition exerciseInputOk (ex : value) : bool :=
  negb (nullish ex)
  && plain (prop ex "day")
  && arrayOrFalsy routineInputOk (prop ex "routines").

Definition workoutInputOk (x : value) : bool :=
  negb (nullish x) && arrayOrFalsy exerciseInputOk (prop x "exercises").

(** [foods] and [protein] are converted entry by entry, and only when
    they are arrays. *)
Definition mealInputOk (m : value) : bool :=
  negb (nullish m)
  && plain (prop m "name")
  && forallb plain (elems (prop m "foods"))
  && forallb plain (elems (prop m "protein")).

Definition dietInputOk (x : value) : bool :=
  negb (nullish x)
  && plain (prop x "dailyCalories")
  && arrayOrFalsy mealInputOk (prop x "meals").

Definition isStr (v : value) : bool :=
  match v with VStr _ => true | _ => false end.

Definition isNum (v : value) : bool :=
  match v with VNum _ => true | _ => false end.

(** The keys of an object, in order. *)
Definition keys (v : value) : list string :=
  match v with VObj props => map fst props | _ => [] end.

Fixpoint sameKeys (a b : list string) : bool :=
  match a, b with
  | [], [] => true
  | x :: a', y :: b' => String.eqb x y && sameKeys a' b'
  | _, _ => false
  end.

Definition keysAre (v : value) (ks : list string) : bool :=
  sameKeys (keys v) ks.

Definition isRoutine (v : value) : bool :=
  keysAre v ["name"; "sets"; "reps"; "duration"; "description"]
  && isStr (prop v "name") && isNum (prop v "sets")
  && isNum (prop v "reps") && isNum (prop v "duration")
  && isStr (prop v "description").

Definition isExercise (v : value) : bool :=
  keysAre v ["day"; "routines"]
  && isStr (prop v "day")
  && isArray (prop v "routines")
  && forallb isRoutine (elems (prop v "routines")).

Definition isWorkoutPlan (v : value) : bool :=
  keysAre v ["schedule"; "exercises"]
  && isArray (prop v "schedule")
  && isArray (prop v "exercises")
  && forallb isExercise (elems (prop v "exercises")).

Definition isMeal (v : value) : bool :=
  keysAre v ["name"; "foods"; "protein"]
  && isStr (prop v "name")
  && isArray (prop v "foods") && forallb isStr (elems (prop v "foods"))
  && isArray (prop v "protein") && forallb isNum (elems (prop v "protein")).

Definition isDietPlan (v : value) : bool :=
  keysAre v ["dailyCalories"; "meals"]
  && isNum (prop v "dailyCalories")
  && isArray (prop v "meals")
  && forallb isMeal (elems (prop v "meals")).

Definition nonEmptyStr (v : value) : bool :=
  match v with VStr s => negb (String.eqb s "") | _ => false end.

(** Every day, routine name and description is a non-empty string. *)
Definition namedWorkoutPlan (p : value) : bool :=
  forallb
    (fun ex =>
       nonEmptyStr (prop ex "day")
       && forallb
            (fun r =>
               nonEmptyStr (prop r "name")
               && nonEmptyStr (prop r "description"))
            (elems (prop ex "routines")))
    (elems (prop p "exercises")).

(** Every meal name is a non-empty string. *)
Definition namedDietPlan (p : value) : bool :=
  forallb (fun m => nonEmptyStr (prop m "name")) (elems (prop p "meals")).

(** [n || d] on numbers. *)
Definition numberOr (n d : number) : number :=
  if isNaN n || isZero n then d else n.

(** A name that is absent, [null] or empty. *)
Definition missingName (v : value) : bool :=
  match v with
  | VUndefined | VNull => true
  | VStr s => String.eqb s ""
  | _ => false
  end.
End Shapes.

(** ** [convex/http.ts]: the [/clerk-webhook] action

    The action verifies the webhook and, for a [user.created] event, runs
    [syncUser].  Only the verification sits inside a [try]: an exception
    raised later leaves the action without a response.  What the action
    does for a [user.updated] event is not in the source and stays a
    parameter. *)

Module ClerkWebhook.
Import JS Convex.
Local Open Scope js_scope.

Record Response : Type := mkResponse {
  status : Z;
  body : string
}.

(** [v === s] for a string literal [s]. *)
Definition strictEqString (v : value) (s : string) : bool :=
  match v with VStr s' => String.eqb s' s | _ => false end.

(** The [args] validators of [syncUser]. *)
Definition checkSyncUserArgs (clerkId email name image : value)
  : result User :=
  match clerkId, email, name with
  | VStr c, VStr e, VStr n =>
      match image with
      | VUndefined => Ok (mkUser c e n None)
      | VStr i => Ok (mkUser c e n (Some i))
      | _ => Throw
      end
  | _, _, _ => Throw
  end.

(** [ctx.runMutation(api.users.syncUser, args)]. *)
Definition runSyncUser (db : DB) (clerkId email name image : value)
  : result DB :=
  args <- checkSyncUserArgs clerkId email name image ;;
  Ok (syncUser db args).

Section Action.
(** What [new Webhook(webhookSecret)] gives: the verifier, or an exception
    when the secret is unusable.  It is built before the [try]. *)
Variable newWebhook : result unit.
(** What [wh.verify(await request.text(), headers)] gives: the event, or
    an exception. *)
Variable verify : result value.
(** The branch for [user.updated] events, which the source leaves out. *)
Variable onUserUpdated : value -> DB -> result DB.

Definition handler (db : DB) : result (Response * DB) :=
  wh <- newWebhook ;;
  match verify with
  | Throw => Ok (mkResponse 400 "Error occurred", db)
  | Ok evt =>
      eventType <- Get evt "type" ;;
      db1 <- (if strictEqString eventType "user.created" then
                data <- Get evt "data" ;;
                id <- Get data "id" ;;
                email_addresses <- Get data "email_addresses" ;;
                first_name <- Get data "first_name" ;;
                image_url <- Get data "image_url" ;;
                first <- Index email_addresses 0 ;;
                email <- Get first "email_address" ;;
                runSyncUser db id email (or_ first_name (VStr "")) image_url
              else Ok db) ;;
      db2 <- (if strictEqString eventType "user.updated" then
                onUserUpdated evt db1
              else Ok db1) ;;
      Ok (mkResponse 200 "Webhook processed", db2)
  end.
End Action.

(** A [user.created] event as Clerk sends it. *)
Definition userCreated (id email first_name image_url : value) : value :=
  VObj [("type", VStr "user.created");
        ("data",
         VObj [("id", id);
               ("email_addresses",
                VArr [VObj [("email_address", email)]]);
               ("first_name", first_name);
               ("image_url", image_url)])].
End ClerkWebhook.

(** ** Database invariants *)

Module Invariants.
Import JS Convex.

(** Every identifier in use is below the next one to be given out. *)
Definition idsBelowNext (db : DB) : Prop :=
  (forall d, In d (users db) -> (fst d < nextId db)%nat) /\
  (forall d, In d (plans db) -> (fst d < nextId db)%nat).

(** No two documents of the [users] table carry the same [clerkId]. *)
Definition uniqueClerkIds (db : DB) : Prop :=
  NoDup (map (fun d => clerkId (snd d)) (users db)).


Definition activePlansOf (db : DB) (uid : string) : list (Id * Plan) :=
  filter (fun d => isActive (snd d)) (getUserPlans db uid).

(** The nested objects of the schema, by name. *)
Definition routineSchema : validator :=
  v_object
    [("name", v_string);
     ("sets", v_optional v_number);
     ("reps", v_optional v_number);
     ("duration", v_optional v_number);
     ("description", v_optional v_string);
     ("exercises", v_optional (v_array v_string))].

Definition exerciseSchema : validator :=
  v_object [("day", v_string); ("routines", v_array routineSchema)].

Definition mealSchema : validator :=
  v_object
    [("name", v_string);
     ("foods", v_array v_string);
     ("protein", v_array v_number)].
End Invariants.

(** ** A request and a scripted model

    The request of a 30-year-old of 80 kg aiming for strength, a model that
    answers the workout call and the diet call with one text each, and a
    parser that knows these two texts. *)

Module Scenario.
Import JSNumber JS Convex GenerateProgram.

Definition payload : value :=
  VObj [("user_id", VStr "user_1"); ("age", VNum (ofZ 30));
        ("weight", VNum (ofZ 80)); ("fitness_goal", VStr "strength")].

Definition workoutText : string :=
  withQuotes "{'schedule': ['Mon'], 'exercises': [{'day': 'Mon', 'routines': [{'name': 'Squats', 'sets': '3'}]}]}".

Definition dietText : string :=
  withQuotes "{'dailyCalories': '2200', 'meals': [{'name': 'Lunch', 'foods': ['Rice'], 'protein': ['12']}]}".

Definition workoutJson : value :=
  VObj [("schedule", VArr [VStr "Mon"]);
        ("exercises",
         VArr [VObj [("day", VStr "Mon");
                     ("routines",
                      VArr [VObj [("name", VStr "Squats");
                                  ("sets", VStr "3")]])]])].

Definition dietJson : value :=
  VObj [("dailyCalories", VStr "2200");
        ("meals",
         VArr [VObj [("name", VStr "Lunch");
                     ("foods", VArr [VStr "Rice"]);
                     ("protein", VArr [VStr "12"])]])].

Definition parse (s : string) : result value :=
  if String.eqb s workoutText then Ok workoutJson
  else if String.eqb s dietText then Ok dietJson
  else Throw.

(** Answers both calls. *)
Definition model (n : nat) (prompt : string) : result (result string) :=
  match n with
  | O => Ok (Ok workoutText)
  | _ => Ok (Ok dietText)
  end.

(** Answers the workout call and throws on the diet call. *)
Definition modelFailingOnDiet (n : nat) (prompt : string)
  : result (result string) :=
  match n with
  | O => Ok (Ok workoutText)
  | _ => Throw
  end.

(** Answers the workout call with prose. *)
Definition modelChatty (n : nat) (prompt : string) : result (result string) :=
  match n with
  | O => Ok (Ok "Sure, here is your plan")
  | _ => Ok (Ok dietText)
  end.



Definition emptyWorld : World := mkWorld (mkDB [] [] 0%nat) [].

(** Plans with nothing in them, and a database that holds one plan of
    [user_1] and one of [user_2], both active. *)
Definition restPlan : value :=
  VObj [("schedule", VArr []); ("exercises", VArr [])].

Definition fastPlan : value :=
  VObj [("dailyCalories", VNum (ofZ 2000)); ("meals", VArr [])].

Definition planArgs (uid name : string) : CreatePlanArgs :=
  mkCreatePlanArgs (VStr uid) (VStr name) restPlan fastPlan (VBool true).

Definition twoPlans : DB :=
  mkDB [(0%nat, mkUser "user_1" "one@example.org" "One" None)]
       [(1%nat, mkPlan "user_1" "First" restPlan fastPlan true);
        (2%nat, mkPlan "user_2" "Other" restPlan fastPlan true)]
       3%nat.
End Scenario.

(** * Properties *)

Import JSNumber JS Validators Convex Shapes.
Local Open Scope js_scope.

(** ** Conversions *)

Lemma ToString_cons (x : value) (r : list value) :
  ToString (VArr (x :: r)) =
  (a <- match x with
        | VUndefined | VNull => Ok ""
        | _ => ToString x
        end ;;
   match r with
   | [] => Ok a
   | _ => b <- ToString (VArr r) ;; Ok (a ++ "," ++ b)
   end).
Proof. reflexivity. Qed.

Lemma plain_ToString (v : value) :
  plain v = true -> exists s, ToString v = Ok s.
Proof.
  induction v using value_ind; intros Hp; try (simpl; eauto; fail).
  - induction H as [|x r Hx Hr IH].
    + simpl; eauto.
    + simpl in Hp. apply andb_true_iff in Hp as [Hpx Hpr].
      rewrite ToString_cons.
      assert (exists a, match x with
                        | VUndefined | VNull => Ok ""
                        | _ => ToString x
                        end = Ok a) as [a Ha].
      { destruct x; eauto. }
      rewrite Ha.
      destruct r as [|y r']; [simpl; eauto|].
      destruct (IH Hpr) as [b Hb].
      cbv beta iota delta [bind]. rewrite Hb. eauto.
  - simpl in *. destruct (hasOwn props "toString"); [discriminate|eauto].
Qed.

Lemma plain_ToNumber (v : value) :
  plain v = true -> exists n, ToNumber v = Ok n.
Proof.
  intros Hp. destruct v; try (simpl; eauto; fail).
  - destruct (plain_ToString _ Hp) as [s Hs].
    unfold ToNumber. rewrite Hs. simpl; eauto.
  - destruct (plain_ToString _ Hp) as [s Hs].
    unfold ToNumber. rewrite Hs. simpl; eauto.
Qed.

Lemma plain_or (v : value) (d : string) :
  plain v = true -> plain (or_ v (VStr d)) = true.
Proof. intros H. unfold or_. destruct (truthy v); auto. Qed.

Lemma Get_prop (v : value) (k : string) :
  nullish v = false -> Get v k = Ok (prop v k).
Proof.
  intros H. unfold prop.
  destruct v; try discriminate; simpl; try reflexivity.
  destruct (lookup k props); reflexivity.
Qed.

Lemma or_numbers (a d : number) :
  or_ (VNum a) (VNum d) = VNum (numberOr a d).
Proof.
  unfold or_, numberOr. simpl. destruct (isNaN a || isZero a); reflexivity.
Qed.

Lemma mapM_Forall {A B : Type} (f : A -> result B) (Q : B -> Prop)
    (l : list A) :
  Forall (fun x => exists y, f x = Ok y /\ Q y) l ->
  exists l', mapM f l = Ok l' /\ Forall Q l'.
Proof.
  induction 1 as [|x r [y [Hy Qy]] _ [l' [Hl' Ql']]].
  - exists []. split; [reflexivity|constructor].
  - exists (y :: l'). simpl. rewrite Hy. simpl.
    fold (mapM f). rewrite Hl'. simpl. split; [reflexivity|].
    constructor; assumption.
Qed.

Arguments ofZ : simpl never.
Arguments NumberToString : simpl never.
Arguments StringToNumber : simpl never.

(** ** The shape of what the validators return *)

(** Inverts the first step of a sequence that returned. *)
Tactic Notation "bind_step" hyp(H) "as" ident(x) ident(E) :=
  match type of H with
  | bind ?m _ = Ok _ =>
      destruct m as [x|] eqn:E; [simpl in H|discriminate H]
  end.

Lemma Get_Ok_nullish (v : value) (k : string) (x : value) :
  Get v k = Ok x -> nullish v = false /\ x = prop v k.
Proof.
  intros H. unfold prop. rewrite H. destruct v; try discriminate; auto.
Qed.

Lemma validateRoutine_inv (r r' : value) :
  validateRoutine r = Ok r' ->
  nullish r = false /\
  exists name sets reps duration description,
    ToString (or_ (prop r "name") (VStr "Unnamed Routine")) = Ok name /\
    ToNumber (prop r "sets") = Ok sets /\
    ToNumber (prop r "reps") = Ok reps /\
    ToNumber (prop r "duration") = Ok duration /\
    ToString (or_ (prop r "description") (VStr "No description"))
      = Ok description /\
    r' = VObj [("name", VStr name);
               ("sets", VNum (numberOr sets (ofZ 1)));
               ("reps", VNum (numberOr reps (ofZ 10)));
               ("duration", VNum (numberOr duration (ofZ 15)));
               ("description", VStr description)].
Proof.
  intros H. destruct (nullish r) eqn:Hn.
  { destruct r; discriminate. }
  split; [reflexivity|].
  unfold validateRoutine in H. rewrite !(Get_prop r) in H by assumption.
  simpl in H.
  bind_step H as name E1. bind_step H as sets E2. bind_step H as reps E3.
  bind_step H as duration E4. bind_step H as description E5.
  exists name, sets, reps, duration, description.
  rewrite !or_numbers in H. injection H as <-. repeat split; assumption.
Qed.

Lemma validateRoutine_intro (r : value) (name description : string)
    (sets reps duration : number) :
  nullish r = false ->
  ToString (or_ (prop r "name") (VStr "Unnamed Routine")) = Ok name ->
  ToNumber (prop r "sets") = Ok sets ->
  ToNumber (prop r "reps") = Ok reps ->
  ToNumber (prop r "duration") = Ok duration ->
  ToString (or_ (prop r "description") (VStr "No description"))
    = Ok description ->
  validateRoutine r =
  Ok (VObj [("name", VStr name);
            ("sets", VNum (numberOr sets (ofZ 1)));
            ("reps", VNum (numberOr reps (ofZ 10)));
            ("duration", VNum (numberOr duration (ofZ 15)));
            ("description", VStr description)]).
Proof.
  intros Hn H1 H2 H3 H4 H5. unfold validateRoutine.
  rewrite !(Get_prop r) by assumption. cbv beta iota delta [bind].
  rewrite H1, H2, H3, H4, H5, !or_numbers. reflexivity.
Qed.

Lemma validateRoutine_total (r : value) :
  routineInputOk r = true ->
  exists r', validateRoutine r = Ok r' /\ isRoutine r' = true.
Proof.
  unfold routineInputOk. rewrite !andb_true_iff, negb_true_iff.
  intros [[[[[Hn Hname] Hsets] Hreps] Hdur] Hdesc].
  destruct (plain_ToString _ (plain_or _ "Unnamed Routine" Hname)) as [a Ha].
  destruct (plain_ToNumber _ Hsets) as [b Hb].
  destruct (plain_ToNumber _ Hreps) as [c Hc].
  destruct (plain_ToNumber _ Hdur) as [d Hd].
  destruct (plain_ToString _ (plain_or _ "No description" Hdesc)) as [e He].
  eexists. split.
  - eapply validateRoutine_intro; eassumption.
  - reflexivity.
Qed.

Lemma mapM_Forall2 {A B : Type} (f : A -> result B) (l : list A)
    (l' : list B) :
  mapM f l = Ok l' <-> Forall2 (fun x y => f x = Ok y) l l'.
Proof.
  split.
  - revert l'. induction l as [|x r IH]; intros l' H.
    + injection H as <-. constructor.
    + simpl in H. destruct (f x) as [y|] eqn:Ey; [simpl in H|discriminate].
      fold (mapM f) in H.
      destruct (mapM f r) as [ys|] eqn:Er; [simpl in H|discriminate].
      injection H as <-. constructor; auto.
  - induction 1 as [|x y r r' Hxy _ IH]; [reflexivity|].
    simpl. rewrite Hxy. simpl. fold (mapM f). rewrite IH. reflexivity.
Qed.

Lemma callMap_inv (v : value) (f : value -> result value) (y : value) :
  callMap v f = Ok y ->
  exists l l', v = VArr l /\ mapM f l = Ok l' /\ y = VArr l'.
Proof.
  destruct v as [| | | | |l|]; try discriminate. simpl.
  destruct (mapM f l) as [l'|] eqn:E; [|discriminate].
  simpl. intros H. injection H as <-. eauto.
Qed.

Lemma arrayOrFalsy_or (ok : value -> bool) (v : value) :
  arrayOrFalsy ok v = true ->
  exists l, or_ v (VArr []) = VArr l /\ forallb ok l = true.
Proof.
  unfold or_. destruct v; simpl; intros H;
    try (apply negb_true_iff in H; simpl in H; rewrite ?H);
    try discriminate; eauto.
Qed.

Lemma forallb_total (ok : value -> bool) (f : value -> result value)
    (Q : value -> bool) (l : list value) :
  (forall x, ok x = true -> exists y, f x = Ok y /\ Q y = true) ->
  forallb ok l = true ->
  exists l', mapM f l = Ok l' /\ forallb Q l' = true.
Proof.
  intros Hf Hl.
  destruct (mapM_Forall f (fun y => Q y = true) l) as [l' [H1 H2]].
  - rewrite forallb_forall in Hl. apply Forall_forall. auto.
  - exists l'. split; [assumption|].
    apply forallb_forall. apply Forall_forall. assumption.
Qed.

Lemma validateExercise_inv (ex ex' : value) :
  validateExercise ex = Ok ex' ->
  nullish ex = false /\
  exists day rs rs',
    ToString (or_ (prop ex "day") (VStr "Unknown")) = Ok day /\
    or_ (prop ex "routines") (VArr []) = VArr rs /\
    mapM validateRoutine rs = Ok rs' /\
    ex' = VObj [("day", VStr day); ("routines", VArr rs')].
Proof.
  intros H. destruct (nullish ex) eqn:Hn.
  { destruct ex; discriminate. }
  split; [reflexivity|].
  unfold validateExercise in H. rewrite !(Get_prop ex) in H by assumption.
  simpl in H.
  bind_step H as day E1. bind_step H as routines E2.
  apply callMap_inv in E2 as [rs [rs' [Hrs [Hm ->]]]].
  injection H as <-. exists day, rs, rs'. auto.
Qed.

Lemma validateExercise_total (ex : value) :
  exerciseInputOk ex = true ->
  exists ex', validateExercise ex = Ok ex' /\ isExercise ex' = true.
Proof.
  unfold exerciseInputOk. rewrite !andb_true_iff, negb_true_iff.
  intros [[Hn Hday] Hrs].
  destruct (plain_ToString _ (plain_or _ "Unknown" Hday)) as [day Hd].
  destruct (arrayOrFalsy_or _ _ Hrs) as [rs [Hor Hall]].
  destruct (forallb_total _ _ isRoutine rs validateRoutine_total Hall)
    as [rs' [Hm Hall']].
  exists (VObj [("day", VStr day); ("routines", VArr rs')]). split.
  - unfold validateExercise. rewrite !(Get_prop ex) by assumption.
    simpl. rewrite Hd. simpl. rewrite Hor. simpl.
    fold (mapM validateRoutine). rewrite Hm. reflexivity.
  - unfold isExercise. simpl. exact Hall'.
Qed.

Lemma validateWorkoutPlan_inv (x p : value) :
  validateWorkoutPlan x = Ok p ->
  nullish x = false /\
  exists exs exs',
    or_ (prop x "exercises") (VArr []) = VArr exs /\
    mapM validateExercise exs = Ok exs' /\
    p = VObj [("schedule",
               if isArray (prop x "schedule") then prop x "schedule"
               else VArr []);
              ("exercises", VArr exs')].
Proof.
  intros H. destruct (nullish x) eqn:Hn.
  { destruct x; discriminate. }
  split; [reflexivity|].
  unfold validateWorkoutPlan in H. rewrite !(Get_prop x) in H by assumption.
  simpl in H.
  bind_step H as exercises E.
  apply callMap_inv in E as [exs [exs' [Hexs [Hm ->]]]].
  injection H as <-. exists exs, exs'. auto.
Qed.

Lemma validateWorkoutPlan_total (x : value) :
  workoutInputOk x = true ->
  exists p, validateWorkoutPlan x = Ok p /\ isWorkoutPlan p = true.
Proof.
  unfold workoutInputOk. rewrite !andb_true_iff, negb_true_iff.
  intros [Hn Hexs].
  destruct (arrayOrFalsy_or _ _ Hexs) as [exs [Hor Hall]].
  destruct (forallb_total _ _ isExercise exs validateExercise_total Hall)
    as [exs' [Hm Hall']].
  eexists. split.
  - unfold validateWorkoutPlan. rewrite !(Get_prop x) by assumption.
    simpl. rewrite Hor. simpl. fold (mapM validateExercise). rewrite Hm.
    reflexivity.
  - unfold isWorkoutPlan. simpl.
    destruct (prop x "schedule"); simpl; exact Hall'.
Qed.

Lemma arrayMap_eq (f : value -> result value) (v : value) :
  (if isArray v then callMap v f else Ok (VArr [])) =
  (l <- mapM f (elems v) ;; Ok (VArr l)).
Proof. destruct v; reflexivity. Qed.

Lemma mapM_String (l : list value) (l' : list value) :
  mapM String_ l = Ok l' ->
  exists ss, mapM ToString l = Ok ss /\ l' = map VStr ss.
Proof.
  revert l'. induction l as [|x r IH]; intros l' H.
  - injection H as <-. exists []. auto.
  - simpl in H. unfold String_ at 1 in H.
    destruct (ToString x) as [s|] eqn:Es; [simpl in H|discriminate].
    fold (mapM String_) in H.
    destruct (mapM String_ r) as [ys|] eqn:Er; [simpl in H|discriminate].
    injection H as <-. destruct (IH _ eq_refl) as [ss [Hss ->]].
    exists (s :: ss). simpl. rewrite Es. simpl. fold (mapM ToString).
    rewrite Hss. auto.
Qed.

Lemma mapM_Number (l : list value) (l' : list value) :
  mapM Number_ l = Ok l' ->
  exists ns, mapM ToNumber l = Ok ns /\ l' = map VNum ns.
Proof.
  revert l'. induction l as [|x r IH]; intros l' H.
  - injection H as <-. exists []. auto.
  - simpl in H. unfold Number_ at 1 in H.
    destruct (ToNumber x) as [n|] eqn:En; [simpl in H|discriminate].
    fold (mapM Number_) in H.
    destruct (mapM Number_ r) as [ys|] eqn:Er; [simpl in H|discriminate].
    injection H as <-. destruct (IH _ eq_refl) as [ns [Hns ->]].
    exists (n :: ns). simpl. rewrite En. simpl. fold (mapM ToNumber).
    rewrite Hns. auto.
Qed.

Lemma validateMeal_inv (m m' : value) :
  validateMeal m = Ok m' ->
  nullish m = false /\
  exists name foods protein,
    ToString (or_ (prop m "name") (VStr "Unnamed Meal")) = Ok name /\
    mapM ToString (elems (prop m "foods")) = Ok foods /\
    mapM ToNumber (elems (prop m "protein")) = Ok protein /\
    m' = VObj [("name", VStr name);
               ("foods", VArr (map VStr foods));
               ("protein", VArr (map VNum protein))].
Proof.
  intros H. destruct (nullish m) eqn:Hn.
  { destruct m; discriminate. }
  split; [reflexivity|].
  unfold validateMeal in H. rewrite !(Get_prop m) in H by assumption.
  simpl in H.
  bind_step H as name E1.
  rewrite arrayMap_eq in H. bind_step H as foods E2.
  rewrite arrayMap_eq in H. bind_step H as protein E3.
  bind_step E2 as fs E2'. bind_step E3 as ps E3'.
  injection E2 as <-. injection E3 as <-.
  apply mapM_String in E2' as [ss [Hss ->]].
  apply mapM_Number in E3' as [ns [Hns ->]].
  injection H as <-. exists name, ss, ns. auto.
Qed.

Lemma validateMeal_intro (m : value) (name : string) (foods : list string)
    (protein : list number) :
  nullish m = false ->
  ToString (or_ (prop m "name") (VStr "Unnamed Meal")) = Ok name ->
  mapM ToString (elems (prop m "foods")) = Ok foods ->
  mapM ToNumber (elems (prop m "protein")) = Ok protein ->
  validateMeal m =
  Ok (VObj [("name", VStr name);
            ("foods", VArr (map VStr foods));
            ("protein", VArr (map VNum protein))]).
Proof.
  intros Hn H1 H2 H3.
  assert (forall l ss, mapM ToString l = Ok ss ->
                       mapM String_ l = Ok (map VStr ss)) as HS.
  { induction l as [|x r IH]; intros ss H.
    - injection H as <-. reflexivity.
    - simpl in H. destruct (ToString x) as [s|] eqn:Es; [simpl in H|discriminate].
      fold (mapM ToString) in H.
      destruct (mapM ToString r) as [ys|] eqn:Er; [simpl in H|discriminate].
      injection H as <-. simpl. unfold String_ at 1. rewrite Es. simpl.
      fold (mapM String_). rewrite (IH _ eq_refl). reflexivity. }
  assert (forall l ns, mapM ToNumber l = Ok ns ->
                       mapM Number_ l = Ok (map VNum ns)) as HN.
  { induction l as [|x r IH]; intros ns H.
    - injection H as <-. reflexivity.
    - simpl in H. destruct (ToNumber x) as [n|] eqn:En; [simpl in H|discriminate].
      fold (mapM ToNumber) in H.
      destruct (mapM ToNumber r) as [ys|] eqn:Er; [simpl in H|discriminate].
      injection H as <-. simpl. unfold Number_ at 1. rewrite En. simpl.
      fold (mapM Number_). rewrite (IH _ eq_refl). reflexivity. }
  unfold validateMeal. rewrite !(Get_prop m) by assumption.
  simpl. rewrite H1. simpl.
  rewrite arrayMap_eq, (HS _ _ H2). simpl.
  rewrite arrayMap_eq, (HN _ _ H3). reflexivity.
Qed.

Lemma validateDietPlan_inv (x p : value) :
  validateDietPlan x = Ok p ->
  nullish x = false /\
  exists calories ms ms',
    ToNumber (prop x "dailyCalories") = Ok calories /\
    or_ (prop x "meals") (VArr []) = VArr ms /\
    mapM validateMeal ms = Ok ms' /\
    p = VObj [("dailyCalories", VNum (numberOr calories (ofZ 2000)));
              ("meals", VArr ms')].
Proof.
  intros H. destruct (nullish x) eqn:Hn.
  { destruct x; discriminate. }
  split; [reflexivity|].
  unfold validateDietPlan in H. rewrite !(Get_prop x) in H by assumption.
  simpl in H.
  bind_step H as calories E1. bind_step H as meals E2.
  apply callMap_inv in E2 as [ms [ms' [Hms [Hm ->]]]].
  rewrite or_numbers in H. injection H as <-. exists calories, ms, ms'. auto.
Qed.

Lemma plain_elems_ToString (v : value) :
  forallb plain (elems v) = true ->
  exists ss, mapM ToString (elems v) = Ok ss.
Proof.
  intros Hp.
  destruct (mapM_Forall ToString (fun _ => True) (elems v)) as [ss [H _]].
  - rewrite forallb_forall in Hp. apply Forall_forall. intros x Hx.
    destruct (plain_ToString x (Hp x Hx)) as [s Hs]. eauto.
  - eauto.
Qed.

Lemma plain_elems_ToNumber (v : value) :
  forallb plain (elems v) = true ->
  exists ns, mapM ToNumber (elems v) = Ok ns.
Proof.
  intros Hp.
  destruct (mapM_Forall ToNumber (fun _ => True) (elems v)) as [ns [H _]].
  - rewrite forallb_forall in Hp. apply Forall_forall. intros x Hx.
    destruct (plain_ToNumber x (Hp x Hx)) as [n Hn]. eauto.
  - eauto.
Qed.

Lemma forallb_map_VStr (ss : list string) :
  forallb isStr (map VStr ss) = true.
Proof. induction ss; simpl; auto. Qed.

Lemma forallb_map_VNum (ns : list number) :
  forallb isNum (map VNum ns) = true.
Proof. induction ns; simpl; auto. Qed.

Lemma validateMeal_total (m : value) :
  mealInputOk m = true ->
  exists m', validateMeal m = Ok m' /\ isMeal m' = true.
Proof.
  unfold mealInputOk. rewrite !andb_true_iff, negb_true_iff.
  intros [[[Hn Hname] Hfoods] Hprotein].
  destruct (plain_ToString _ (plain_or _ "Unnamed Meal" Hname)) as [a Ha].
  destruct (plain_elems_ToString _ Hfoods) as [ss Hss].
  destruct (plain_elems_ToNumber _ Hprotein) as [ns Hns].
  eexists. split.
  - eapply validateMeal_intro; eassumption.
  - unfold isMeal. simpl.
    rewrite forallb_map_VStr, forallb_map_VNum. reflexivity.
Qed.

Lemma validateDietPlan_total (x : value) :
  dietInputOk x = true ->
  exists p calories,
    ToNumber (prop x "dailyCalories") = Ok calories /\
    validateDietPlan x = Ok p /\
    prop p "dailyCalories" = VNum (numberOr calories (ofZ 2000)) /\
    isDietPlan p = true.
Proof.
  unfold dietInputOk. rewrite !andb_true_iff, negb_true_iff.
  intros [[Hn Hcal] Hmeals].
  destruct (plain_ToNumber _ Hcal) as [c Hc].
  destruct (arrayOrFalsy_or _ _ Hmeals) as [ms [Hor Hall]].
  destruct (forallb_total _ _ isMeal ms validateMeal_total Hall)
    as [ms' [Hm Hall']].
  exists (VObj [("dailyCalories", VNum (numberOr c (ofZ 2000)));
                ("meals", VArr ms')]), c.
  split; [assumption|]. split; [|split].
  - unfold validateDietPlan. rewrite !(Get_prop x) by assumption.
    simpl. rewrite Hc. simpl. rewrite Hor. simpl.
    fold (mapM validateMeal). rewrite Hm. simpl.
    rewrite or_numbers. reflexivity.
  - reflexivity.
  - unfold isDietPlan. simpl. exact Hall'.
Qed.

(** ** The claims about the validators *)

(** C1, counterexample: the claim includes [null] among the inputs, and on
    [null] the first property read, [plan.schedule], throws. *)
Lemma C1_null_throws : validateWorkoutPlan VNull = Throw.
Proof. reflexivity. Qed.

(** C1, as amended: on every input other than [null] and [undefined] whose
    [exercises] is falsy or an array of entries that are neither [null] nor
    [undefined], each with [routines] falsy or such an array, and whose
    [day], [name], [description], [sets], [reps] and [duration] values hold
    no object with a [toString] property of its own, [validateWorkoutPlan]
    returns, and what it returns has the fields [schedule] and [exercises],
    both arrays, every exercise a string [day] and an array [routines],
    every routine string [name] and [description] and numeric [sets],
    [reps] and [duration]. *)
Theorem C1_validateWorkoutPlan_returns_workout_plan (x : value) :
  workoutInputOk x = true ->
  exists p, validateWorkoutPlan x = Ok p /\ isWorkoutPlan p = true.
Proof. apply validateWorkoutPlan_total. Qed.

Lemma C1_witness :
  let x :=
    VObj [("schedule", VStr "daily");
          ("exercises",
           VArr [VObj [("day", VNum (ofZ 3));
                       ("routines",
                        VArr [VObj [("name", VNull); ("sets", VStr "abc");
                                    ("reps", VObj [])]])];
                 VObj [("routines", VNull)];
                 VStr "rest"])] in
  workoutInputOk x = true /\
  exists p, validateWorkoutPlan x = Ok p /\ isWorkoutPlan p = true.
Proof.
  intros x. split; [reflexivity|].
  apply (C1_validateWorkoutPlan_returns_workout_plan x). reflexivity.
Defined.

(** C8: for [{ exercises: [{ day: "Monday", routines: [{ name: "Squats" }] }] }]
    the result has the one exercise, day [Monday], with the one routine
    named [Squats], sets 1, reps 10, duration 15 and description
    [No description]. *)
Theorem C8_defaults_for_omitted_routine_fields :
  validateWorkoutPlan
    (VObj [("exercises",
            VArr [VObj [("day", VStr "Monday");
                        ("routines", VArr [VObj [("name", VStr "Squats")]])]])])
  = Ok (VObj [("schedule", VArr []);
              ("exercises",
               VArr [VObj [("day", VStr "Monday");
                           ("routines",
                            VArr [VObj [("name", VStr "Squats");
                                        ("sets", VNum (ofZ 1));
                                        ("reps", VNum (ofZ 10));
                                        ("duration", VNum (ofZ 15));
                                        ("description",
                                         VStr "No description")]])]])]).
Proof. vm_compute. reflexivity. Qed.

(** C5: for a plan whose [meals] is the string [none] the validator does not
    return empty meals: [plan.meals.map] is not a function and the call
    throws. *)
Theorem C5_non_array_meals_throws :
  validateDietPlan (VObj [("dailyCalories", VNum (ofZ 1800));
                          ("meals", VStr "none")]) = Throw.
Proof. vm_compute. reflexivity. Qed.

Lemma numberOr_truthy (n d : number) :
  isNaN d || isZero d = false ->
  isNaN (numberOr n d) || isZero (numberOr n d) = false.
Proof.
  intros Hd. unfold numberOr.
  destruct (isNaN n || isZero n) eqn:E; assumption.
Qed.

Lemma numberOr_idem (n d : number) :
  isNaN d || isZero d = false ->
  numberOr (numberOr n d) d = numberOr n d.
Proof.
  intros Hd. unfold numberOr at 1. rewrite (numberOr_truthy n d Hd).
  reflexivity.
Qed.

(** C4, counterexample: a negative [dailyCalories] is kept, and so is a
    fractional one; neither is a positive integer. *)
Lemma C4_negative_and_fractional_calories_kept :
  validateDietPlan (VObj [("dailyCalories", VNum (ofZ (-5)))])
    = Ok (VObj [("dailyCalories", VNum (ofZ (-5))); ("meals", VArr [])]) /\
  isPositive (ofZ (-5)) = false /\
  validateDietPlan (VObj [("dailyCalories", VStr "2000.5")])
    = Ok (VObj [("dailyCalories", VNum (StringToNumber "2000.5"));
                ("meals", VArr [])]) /\
  isInteger (StringToNumber "2000.5") = false.
Proof. vm_compute. auto. Qed.

Lemma mapM_fixed (f : value -> result value) (l : list value) :
  Forall (fun y => f y = Ok y) l -> mapM f l = Ok l.
Proof.
  induction 1 as [|y r Hy _ IH]; [reflexivity|].
  simpl. rewrite Hy. simpl. fold (mapM f). rewrite IH. reflexivity.
Qed.

Lemma or_nonEmptyStr (v d : value) :
  nonEmptyStr v = true -> exists s, v = VStr s /\ or_ v d = VStr s.
Proof.
  destruct v as [| | | |s| |]; try discriminate. intros H.
  exists s. unfold or_. simpl. simpl in H. rewrite H. auto.
Qed.

Lemma validateRoutine_fixed (r r' : value) :
  validateRoutine r = Ok r' ->
  nonEmptyStr (prop r' "name") && nonEmptyStr (prop r' "description") = true ->
  validateRoutine r' = Ok r'.
Proof.
  intros H Hne.
  apply validateRoutine_inv in H
    as [_ [name [s [p [d [ds [_ [_ [_ [_ [_ ->]]]]]]]]]]].
  apply andb_true_iff in Hne as [Hname Hdesc].
  destruct (or_nonEmptyStr _ (VStr "Unnamed Routine") Hname)
    as [n1 [Hn1 Hor1]].
  destruct (or_nonEmptyStr _ (VStr "No description") Hdesc)
    as [n2 [Hn2 Hor2]].
  change (prop _ "name") with (VStr name) in Hn1.
  change (prop _ "description") with (VStr ds) in Hn2.
  injection Hn1 as <-. injection Hn2 as <-.
  etransitivity.
  - apply (validateRoutine_intro _ name ds
             (numberOr s (ofZ 1)) (numberOr p (ofZ 10))
             (numberOr d (ofZ 15))); try reflexivity.
    + rewrite Hor1. reflexivity.
    + rewrite Hor2. reflexivity.
  - rewrite !numberOr_idem by reflexivity. reflexivity.
Qed.

Lemma Forall2_fixed (f : value -> result value) (Q : value -> bool)
    (l l' : list value) :
  (forall x y, f x = Ok y -> Q y = true -> f y = Ok y) ->
  Forall2 (fun x y => f x = Ok y) l l' ->
  forallb Q l' = true ->
  mapM f l' = Ok l'.
Proof.
  intros Hf H2 HQ. apply mapM_fixed.
  induction H2 as [|x y r r' Hxy _ IH]; [constructor|].
  simpl in HQ. apply andb_true_iff in HQ as [Hy Hr].
  constructor; eauto.
Qed.

Lemma validateExercise_fixed (ex ex' : value) :
  validateExercise ex = Ok ex' ->
  nonEmptyStr (prop ex' "day")
  && forallb
       (fun r =>
          nonEmptyStr (prop r "name") && nonEmptyStr (prop r "description"))
       (elems (prop ex' "routines")) = true ->
  validateExercise ex' = Ok ex'.
Proof.
  intros H Hne.
  apply validateExercise_inv in H as [_ [day [rs [rs' [_ [_ [Hm ->]]]]]]].
  apply andb_true_iff in Hne as [Hday Hrs].
  destruct (or_nonEmptyStr _ (VStr "Unknown") Hday) as [n1 [Hn1 Hor1]].
  change (prop _ "day") with (VStr day) in Hn1, Hor1.
  change (elems (prop _ "routines")) with rs' in Hrs.
  injection Hn1 as <-.
  apply mapM_Forall2 in Hm.
  pose proof (Forall2_fixed _ _ _ _ validateRoutine_fixed Hm Hrs) as Hfix.
  unfold validateExercise. simpl. rewrite Hor1. simpl.
  fold (mapM validateRoutine). rewrite Hfix. reflexivity.
Qed.

Lemma validateWorkoutPlan_fixed (x p : value) :
  validateWorkoutPlan x = Ok p ->
  namedWorkoutPlan p = true ->
  validateWorkoutPlan p = Ok p.
Proof.
  intros H Hne.
  apply validateWorkoutPlan_inv in H as [_ [exs [exs' [_ [Hm ->]]]]].
  unfold namedWorkoutPlan in Hne.
  change (elems (prop _ "exercises")) with exs' in Hne.
  apply mapM_Forall2 in Hm.
  pose proof (Forall2_fixed _ _ _ _ validateExercise_fixed Hm Hne) as Hfix.
  unfold validateWorkoutPlan. simpl.
  fold (mapM validateExercise). rewrite Hfix. simpl.
  destruct (prop x "schedule"); reflexivity.
Qed.

Lemma mapM_ToString_VStr (ss : list string) :
  mapM ToString (map VStr ss) = Ok ss.
Proof.
  induction ss as [|s r IH]; [reflexivity|].
  simpl. fold (mapM ToString). rewrite IH. reflexivity.
Qed.

Lemma mapM_ToNumber_VNum (ns : list number) :
  mapM ToNumber (map VNum ns) = Ok ns.
Proof.
  induction ns as [|n r IH]; [reflexivity|].
  simpl. fold (mapM ToNumber). rewrite IH. reflexivity.
Qed.

Lemma validateMeal_fixed (m m' : value) :
  validateMeal m = Ok m' ->
  nonEmptyStr (prop m' "name") = true ->
  validateMeal m' = Ok m'.
Proof.
  intros H Hne.
  apply validateMeal_inv in H as [_ [name [fs [ps [_ [_ [_ ->]]]]]]].
  destruct (or_nonEmptyStr _ (VStr "Unnamed Meal") Hne) as [n1 [Hn1 Hor1]].
  change (prop _ "name") with (VStr name) in Hn1.
  injection Hn1 as <-.
  apply validateMeal_intro; try reflexivity.
  - rewrite Hor1. reflexivity.
  - apply mapM_ToString_VStr.
  - apply mapM_ToNumber_VNum.
Qed.

Lemma validateDietPlan_fixed (x p : value) :
  validateDietPlan x = Ok p ->
  namedDietPlan p = true ->
  validateDietPlan p = Ok p.
Proof.
  intros H Hne.
  apply validateDietPlan_inv in H as [_ [c [ms [ms' [_ [_ [Hm ->]]]]]]].
  unfold namedDietPlan in Hne.
  change (elems (prop _ "meals")) with ms' in Hne.
  apply mapM_Forall2 in Hm.
  pose proof (Forall2_fixed _ _ _ _ validateMeal_fixed Hm Hne) as Hfix.
  unfold validateDietPlan. simpl.
  fold (mapM validateMeal). rewrite Hfix. simpl.
  rewrite or_numbers, numberOr_idem by reflexivity. reflexivity.
Qed.

(** C7, counterexample: [validateWorkoutPlan] turns the day [[]] into the
    empty string, and validating that result again turns the empty string
    into [Unknown]: the second result differs from the first. *)
Lemma C7_empty_day_is_not_stable :
  validateWorkoutPlan (VObj [("exercises", VArr [VObj [("day", VArr [])]])])
    = Ok (VObj [("schedule", VArr []);
                ("exercises",
                 VArr [VObj [("day", VStr ""); ("routines", VArr [])]])]) /\
  validateWorkoutPlan
    (VObj [("schedule", VArr []);
           ("exercises",
            VArr [VObj [("day", VStr ""); ("routines", VArr [])]])])
    = Ok (VObj [("schedule", VArr []);
                ("exercises",
                 VArr [VObj [("day", VStr "Unknown");
                             ("routines", VArr [])]])]).
Proof. vm_compute. auto. Qed.

(** C7, as amended: a plan [p] that [validateWorkoutPlan] returned and in
    which no day, routine name or description is the empty string is
    returned unchanged when validated again; so is a plan that
    [validateDietPlan] returned and in which no meal name is the empty
    string. *)
Theorem C7_validators_idempotent_on_named_plans (x p y q : value) :
  (validateWorkoutPlan x = Ok p -> namedWorkoutPlan p = true ->
   validateWorkoutPlan p = Ok p) /\
  (validateDietPlan y = Ok q -> namedDietPlan q = true ->
   validateDietPlan q = Ok q).
Proof.
  split.
  - apply validateWorkoutPlan_fixed.
  - apply validateDietPlan_fixed.
Qed.

Lemma C7_witness :
  let x :=
    VObj [("schedule", VArr [VStr "Mon"]);
          ("exercises",
           VArr [VObj [("day", VStr "Mon");
                       ("routines",
                        VArr [VObj [("name", VStr "Squats");
                                    ("sets", VStr "3")]])]])] in
  let y :=
    VObj [("dailyCalories", VStr "2200");
          ("meals",
           VArr [VObj [("name", VStr "Lunch");
                       ("foods", VArr [VNum (ofZ 2)]);
                       ("protein", VArr [VStr "12"])]])] in
  exists p q,
    validateWorkoutPlan x = Ok p /\ validateWorkoutPlan p = Ok p /\
    validateDietPlan y = Ok q /\ validateDietPlan q = Ok q.
Proof.
  intros x y.
  assert (exists p, validateWorkoutPlan x = Ok p /\
                    namedWorkoutPlan p = true) as [p [Hp Hnp]].
  { eexists. split; vm_compute; reflexivity. }
  assert (exists q, validateDietPlan y = Ok q /\
                    namedDietPlan q = true) as [q [Hq Hnq]].
  { eexists. split; vm_compute; reflexivity. }
  destruct (C7_validators_idempotent_on_named_plans x p y q) as [Hw Hd].
  exists p, q. repeat split; auto.
Defined.

(** ** Entry by entry

    What a validator returns at a position of [exercises], [routines] or
    [meals] is what the mapped function returns for the entry given at
    that position. *)

Lemma or_array_elems (v : value) (l : list value) :
  or_ v (VArr []) = VArr l -> elems v = l.
Proof.
  intros H. unfold or_ in H. destruct (truthy v) eqn:Ht.
  - subst v. reflexivity.
  - injection H as <-. destruct v; try reflexivity. discriminate Ht.
Qed.

Lemma Forall2_nth_error_l {A B : Type} (R : A -> B -> Prop)
    (l : list A) (l' : list B) (i : nat) (x : A) :
  Forall2 R l l' -> nth_error l i = Some x ->
  exists y, nth_error l' i = Some y /\ R x y.
Proof.
  intros H. revert i. induction H as [|a b r r' Hab _ IH]; intros i Hi.
  - destruct i; discriminate.
  - destruct i as [|i].
    + injection Hi as <-. exists b. split; [reflexivity|assumption].
    + exact (IH i Hi).
Qed.

Lemma validateWorkoutPlan_exercises (x p : value) :
  validateWorkoutPlan x = Ok p ->
  Forall2 (fun ex ex' => validateExercise ex = Ok ex')
    (elems (prop x "exercises")) (elems (prop p "exercises")).
Proof.
  intros H.
  apply validateWorkoutPlan_inv in H as [_ [exs [exs' [Hor [Hm ->]]]]].
  rewrite (or_array_elems _ _ Hor). apply mapM_Forall2. exact Hm.
Qed.

Lemma validateExercise_routines (ex ex' : value) :
  validateExercise ex = Ok ex' ->
  Forall2 (fun r r' => validateRoutine r = Ok r')
    (elems (prop ex "routines")) (elems (prop ex' "routines")).
Proof.
  intros H.
  apply validateExercise_inv in H as [_ [day [rs [rs' [_ [Hor [Hm ->]]]]]]].
  rewrite (or_array_elems _ _ Hor). apply mapM_Forall2. exact Hm.
Qed.

Lemma validateDietPlan_meals (y q : value) :
  validateDietPlan y = Ok q ->
  Forall2 (fun m m' => validateMeal m = Ok m')
    (elems (prop y "meals")) (elems (prop q "meals")).
Proof.
  intros H.
  apply validateDietPlan_inv in H as [_ [c [ms [ms' [_ [Hor [Hm ->]]]]]]].
  rewrite (or_array_elems _ _ Hor). apply mapM_Forall2. exact Hm.
Qed.

(** The routine returned at position [j] of exercise [i]. *)
Lemma validateWorkoutPlan_routine_at (x p ex r : value) (i j : nat) :
  validateWorkoutPlan x = Ok p ->
  nth_error (elems (prop x "exercises")) i = Some ex ->
  nth_error (elems (prop ex "routines")) j = Some r ->
  exists ex' r',
    nth_error (elems (prop p "exercises")) i = Some ex' /\
    nth_error (elems (prop ex' "routines")) j = Some r' /\
    validateExercise ex = Ok ex' /\
    validateRoutine r = Ok r'.
Proof.
  intros Hp Hi Hj.
  destruct (Forall2_nth_error_l _ _ _ _ _
              (validateWorkoutPlan_exercises _ _ Hp) Hi) as [ex' [Hi' Hex]].
  destruct (Forall2_nth_error_l _ _ _ _ _
              (validateExercise_routines _ _ Hex) Hj) as [r' [Hj' Hr]].
  exists ex', r'. auto.
Qed.

(** The meal returned at position [i]. *)
Lemma validateDietPlan_meal_at (y q m : value) (i : nat) :
  validateDietPlan y = Ok q ->
  nth_error (elems (prop y "meals")) i = Some m ->
  exists m',
    nth_error (elems (prop q "meals")) i = Some m' /\
    validateMeal m = Ok m'.
Proof.
  intros Hq Hi.
  exact (Forall2_nth_error_l _ _ _ _ _ (validateDietPlan_meals _ _ Hq) Hi).
Qed.

Lemma missingName_or (v d : value) :
  missingName v = true -> or_ v d = d.
Proof.
  intros H. unfold or_.
  destruct v as [| | | |s| |]; try discriminate; try reflexivity.
  simpl in H. apply String.eqb_eq in H. subst s. reflexivity.
Qed.

(** C10: in whatever [validateWorkoutPlan] returns, the routine at a
    position where the given routine's [name] is absent, [null] or the
    empty string is named [Unnamed Routine]; and in whatever
    [validateDietPlan] returns, the meal at a position where the given
    meal's [name] is absent, [null] or the empty string is named
    [Unnamed Meal]. *)
Theorem C10_missing_names_get_fallbacks (x p y q : value) :
  (validateWorkoutPlan x = Ok p ->
   forall (i j : nat) (ex r : value),
     nth_error (elems (prop x "exercises")) i = Some ex ->
     nth_error (elems (prop ex "routines")) j = Some r ->
     missingName (prop r "name") = true ->
     exists ex' r',
       nth_error (elems (prop p "exercises")) i = Some ex' /\
       nth_error (elems (prop ex' "routines")) j = Some r' /\
       prop r' "name" = VStr "Unnamed Routine") /\
  (validateDietPlan y = Ok q ->
   forall (i : nat) (m : value),
     nth_error (elems (prop y "meals")) i = Some m ->
     missingName (prop m "name") = true ->
     exists m',
       nth_error (elems (prop q "meals")) i = Some m' /\
       prop m' "name" = VStr "Unnamed Meal").
Proof.
  split.
  - intros Hp i j ex r Hi Hj Hmiss.
    destruct (validateWorkoutPlan_routine_at _ _ _ _ _ _ Hp Hi Hj)
      as [ex' [r' [Hi' [Hj' [_ Hr]]]]].
    exists ex', r'. split; [assumption|]. split; [assumption|].
    apply validateRoutine_inv in Hr
      as [_ [name [s [n [d [ds [Hname [_ [_ [_ [_ ->]]]]]]]]]]].
    rewrite (missingName_or _ _ Hmiss) in Hname. injection Hname as <-.
    reflexivity.
  - intros Hq i m Hi Hmiss.
    destruct (validateDietPlan_meal_at _ _ _ _ Hq Hi) as [m' [Hi' Hm]].
    exists m'. split; [assumption|].
    apply validateMeal_inv in Hm as [_ [name [fs [ps [Hname [_ [_ ->]]]]]]].
    rewrite (missingName_or _ _ Hmiss) in Hname. injection Hname as <-.
    reflexivity.
Qed.

Lemma C10_witness :
  let x :=
    VObj [("exercises",
           VArr [VObj [("day", VStr "Mon");
                       ("routines",
                        VArr [VObj [("name", VStr "Squats")];
                              VObj [("name", VStr ""); ("sets", VNum (ofZ 3))];
                              VObj [("name", VNull)];
                              VObj [("reps", VNum (ofZ 8))]])]])] in
  let y :=
    VObj [("meals",
           VArr [VObj [("name", VNull); ("foods", VArr [VStr "Eggs"])];
                 VObj [("name", VStr "Lunch");
                       ("foods", VObj [("toString", VNum (ofZ 1))])]])] in
  exists p q ex' r1 r2 r3 m',
    validateWorkoutPlan x = Ok p /\
    validateDietPlan y = Ok q /\
    nth_error (elems (prop p "exercises")) 0 = Some ex' /\
    nth_error (elems (prop ex' "routines")) 1 = Some r1 /\
    prop r1 "name" = VStr "Unnamed Routine" /\
    nth_error (elems (prop ex' "routines")) 2 = Some r2 /\
    prop r2 "name" = VStr "Unnamed Routine" /\
    nth_error (elems (prop ex' "routines")) 3 = Some r3 /\
    prop r3 "name" = VStr "Unnamed Routine" /\
    nth_error (elems (prop q "meals")) 0 = Some m' /\
    prop m' "name" = VStr "Unnamed Meal".
Proof.
  intros x y.
  assert (exists p, validateWorkoutPlan x = Ok p) as [p Hp]
    by (eexists; vm_compute; reflexivity).
  assert (exists q, validateDietPlan y = Ok q) as [q Hq]
    by (eexists; vm_compute; reflexivity).
  destruct (C10_missing_names_get_fallbacks x p y q) as [Hw Hd].
  specialize (Hw Hp). specialize (Hd Hq).
  destruct (Hw 0%nat 1%nat _ _ eq_refl eq_refl eq_refl)
    as [ex1 [r1 [He1 [Hr1 Hn1]]]].
  destruct (Hw 0%nat 2%nat _ _ eq_refl eq_refl eq_refl)
    as [ex2 [r2 [He2 [Hr2 Hn2]]]].
  destruct (Hw 0%nat 3%nat _ _ eq_refl eq_refl eq_refl)
    as [ex3 [r3 [He3 [Hr3 Hn3]]]].
  destruct (Hd 0%nat _ eq_refl eq_refl) as [m' [Hm Hnm]].
  rewrite He1 in He2. injection He2 as <-.
  rewrite He1 in He3. injection He3 as <-.
  exists p, q, ex1, r1, r2, r3, m'. repeat split; assumption.
Defined.

(** C4, as amended: on every input on which [validateDietPlan] returns,
    the [dailyCalories] of the result is [Number(raw)] when that is
    neither [NaN] nor zero and 2000 otherwise; the field is never [NaN]
    and never zero. *)
Theorem C4_dailyCalories_is_number_or_2000 (x p : value) :
  validateDietPlan x = Ok p ->
  exists raw n,
    ToNumber (prop x "dailyCalories") = Ok raw /\
    prop p "dailyCalories" = VNum n /\
    n = (if isNaN raw || isZero raw then ofZ 2000 else raw) /\
    isNaN n = false /\ isZero n = false.
Proof.
  intros H.
  apply validateDietPlan_inv in H as [_ [c [ms [ms' [Hc [_ [_ ->]]]]]]].
  exists c, (numberOr c (ofZ 2000)).
  assert (isNaN (numberOr c (ofZ 2000)) || isZero (numberOr c (ofZ 2000))
          = false) as Ht by (apply numberOr_truthy; reflexivity).
  apply orb_false_iff in Ht as [Ht1 Ht2]. repeat split; assumption.
Qed.

Lemma C4_witness :
  let x :=
    VObj [("dailyCalories", VStr "2200");
          ("meals",
           VArr [VObj [("foods", VObj [("toString", VNum (ofZ 1))])]])] in
  let y := VObj [("dailyCalories", VStr "abc"); ("meals", VNull)] in
  exists p q,
    validateDietPlan x = Ok p /\
    prop p "dailyCalories" = VNum (ofZ 2200) /\
    validateDietPlan y = Ok q /\
    prop q "dailyCalories" = VNum (ofZ 2000).
Proof.
  intros x y.
  assert (exists p, validateDietPlan x = Ok p) as [p Hp]
    by (eexists; vm_compute; reflexivity).
  assert (exists q, validateDietPlan y = Ok q) as [q Hq]
    by (eexists; vm_compute; reflexivity).
  destruct (C4_dailyCalories_is_number_or_2000 x p Hp)
    as [raw [n [Hraw [Hn [Heq _]]]]].
  destruct (C4_dailyCalories_is_number_or_2000 y q Hq)
    as [raw' [n' [Hraw' [Hn' [Heq' _]]]]].
  exists p, q. split; [exact Hp|]. split; [|split; [exact Hq|]].
  - rewrite Hn, Heq. vm_compute in Hraw. injection Hraw as <-.
    vm_compute. reflexivity.
  - rewrite Hn', Heq'. vm_compute in Hraw'. injection Hraw' as <-.
    vm_compute. reflexivity.
Defined.

(** C2, counterexample: in what [validateWorkoutPlan] returns, the number
    0 given for [reps] is replaced by 10 and [true] given for [reps]
    becomes 1, not the default; in what [validateDietPlan] returns, a
    protein entry that is not numeric becomes [NaN], there being no
    default. *)
Lemma C2_zero_true_and_protein :
  validateWorkoutPlan
    (VObj [("exercises",
            VArr [VObj [("day", VStr "Mon");
                        ("routines",
                         VArr [VObj [("reps", VNum (ofZ 0))];
                               VObj [("reps", VBool true)]])]])])
    = Ok (VObj [("schedule", VArr []);
                ("exercises",
                 VArr [VObj [("day", VStr "Mon");
                             ("routines",
                              VArr [VObj [("name", VStr "Unnamed Routine");
                                          ("sets", VNum (ofZ 1));
                                          ("reps", VNum (ofZ 10));
                                          ("duration", VNum (ofZ 15));
                                          ("description",
                                           VStr "No description")];
                                    VObj [("name", VStr "Unnamed Routine");
                                          ("sets", VNum (ofZ 1));
                                          ("reps", VNum (ofZ 1));
                                          ("duration", VNum (ofZ 15));
                                          ("description",
                                           VStr "No description")]])]])]) /\
  validateDietPlan
    (VObj [("dailyCalories", VNum (ofZ 1800));
           ("meals", VArr [VObj [("protein", VArr [VStr "abc"])]])])
    = Ok (VObj [("dailyCalories", VNum (ofZ 1800));
                ("meals",
                 VArr [VObj [("name", VStr "Unnamed Meal");
                             ("foods", VArr []);
                             ("protein", VArr [VNum NaN])]])]).
Proof. vm_compute. auto. Qed.

(** C2, as amended: in whatever [validateWorkoutPlan] returns, the [sets],
    [reps] and [duration] of the routine at a position are [Number(raw)]
    of the values given at that position when that is neither [NaN] nor
    zero, and the defaults 1, 10 and 15 otherwise; in whatever
    [validateDietPlan] returns, [dailyCalories] is [Number(raw)] when that
    is neither [NaN] nor zero and 2000 otherwise, and the [protein] of the
    meal at a position holds, entry by entry, [Number(raw)] of the entries
    given, with no default. *)
Theorem C2_numeric_fields_are_Number_or_default (x p y q : value) :
  (validateWorkoutPlan x = Ok p ->
   forall (i j : nat) (ex r : value),
     nth_error (elems (prop x "exercises")) i = Some ex ->
     nth_error (elems (prop ex "routines")) j = Some r ->
     exists ex' r' sets reps duration,
       nth_error (elems (prop p "exercises")) i = Some ex' /\
       nth_error (elems (prop ex' "routines")) j = Some r' /\
       ToNumber (prop r "sets") = Ok sets /\
       ToNumber (prop r "reps") = Ok reps /\
       ToNumber (prop r "duration") = Ok duration /\
       prop r' "sets" = VNum (numberOr sets (ofZ 1)) /\
       prop r' "reps" = VNum (numberOr reps (ofZ 10)) /\
       prop r' "duration" = VNum (numberOr duration (ofZ 15))) /\
  (validateDietPlan y = Ok q ->
   (exists calories,
      ToNumber (prop y "dailyCalories") = Ok calories /\
      prop q "dailyCalories" = VNum (numberOr calories (ofZ 2000))) /\
   forall (i : nat) (m : value),
     nth_error (elems (prop y "meals")) i = Some m ->
     exists m',
       nth_error (elems (prop q "meals")) i = Some m' /\
       Forall2 (fun raw out => exists n, ToNumber raw = Ok n /\ out = VNum n)
         (elems (prop m "protein")) (elems (prop m' "protein"))).
Proof.
  split.
  - intros Hp i j ex r Hi Hj.
    destruct (validateWorkoutPlan_routine_at _ _ _ _ _ _ Hp Hi Hj)
      as [ex' [r' [Hi' [Hj' [_ Hr]]]]].
    apply validateRoutine_inv in Hr
      as [_ [name [s [n [d [ds [_ [Hs [Hn [Hd [_ ->]]]]]]]]]]].
    exists ex'. eexists. exists s, n, d.
    split; [exact Hi'|]. split; [exact Hj'|].
    repeat split; assumption.
  - intros Hq. split.
    + destruct (validateDietPlan_inv _ _ Hq)
        as [_ [c [ms [ms' [Hc [_ [_ ->]]]]]]].
      exists c. split; [assumption|reflexivity].
    + intros i m Hi.
      destruct (validateDietPlan_meal_at _ _ _ _ Hq Hi) as [m' [Hi' Hm]].
      exists m'. split; [assumption|].
      apply validateMeal_inv in Hm as [_ [name [fs [ps [_ [_ [Hps ->]]]]]]].
      change (elems (prop _ "protein")) with (map VNum ps) at 2.
      apply mapM_Forall2 in Hps. clear - Hps.
      induction Hps as [|raw n l ns Hraw _ IH]; [constructor|].
      simpl. constructor; [exists n; auto|exact IH].
Qed.

Lemma C2_witness :
  let x :=
    VObj [("exercises",
           VArr [VObj [("day", VStr "Mon");
                       ("routines",
                        VArr [VObj [("sets", VStr "10");
                                    ("reps", VNum (StringToNumber "10.5"));
                                    ("duration", VObj [])]])]])] in
  let y :=
    VObj [("dailyCalories", VStr "abc");
          ("meals", VArr [VObj [("protein", VArr [VStr "12"; VNull])]])] in
  exists p q ex' r' m',
    validateWorkoutPlan x = Ok p /\
    validateDietPlan y = Ok q /\
    nth_error (elems (prop p "exercises")) 0 = Some ex' /\
    nth_error (elems (prop ex' "routines")) 0 = Some r' /\
    prop r' "sets" = VNum (ofZ 10) /\
    prop r' "reps" = VNum (StringToNumber "10.5") /\
    prop r' "duration" = VNum (ofZ 15) /\
    prop q "dailyCalories" = VNum (ofZ 2000) /\
    nth_error (elems (prop q "meals")) 0 = Some m' /\
    Forall2 (fun raw out => exists n, ToNumber raw = Ok n /\ out = VNum n)
      [VStr "12"; VNull] (elems (prop m' "protein")).
Proof.
  intros x y.
  assert (exists p, validateWorkoutPlan x = Ok p) as [p Hp]
    by (eexists; vm_compute; reflexivity).
  assert (exists q, validateDietPlan y = Ok q) as [q Hq]
    by (eexists; vm_compute; reflexivity).
  destruct (C2_numeric_fields_are_Number_or_default x p y q) as [Hw Hd].
  destruct (Hw Hp 0%nat 0%nat _ _ eq_refl eq_refl)
    as [ex' [r' [s [n [d [Hi [Hj [Hs [Hn [Hdu [H1 [H2 H3]]]]]]]]]]]].
  destruct (Hd Hq) as [[c [Hc Hcal]] Hmeals].
  destruct (Hmeals 0%nat _ eq_refl) as [m' [Hm Hprotein]].
  exists p, q, ex', r', m'.
  vm_compute in Hs. injection Hs as <-.
  vm_compute in Hn. injection Hn as <-.
  vm_compute in Hdu. injection Hdu as <-.
  vm_compute in Hc. injection Hc as <-.
  split; [exact Hp|]. split; [exact Hq|].
  split; [exact Hi|]. split; [exact Hj|].
  split; [rewrite H1; vm_compute; reflexivity|].
  split; [rewrite H2; vm_compute; reflexivity|].
  split; [rewrite H3; vm_compute; reflexivity|].
  split; [rewrite Hcal; vm_compute; reflexivity|].
  split; [exact Hm|exact Hprotein].
Defined.

(** ** [syncUser] *)

Lemma firstUserByClerkId_Some (db : DB) (id : string) :
  (exists d, In d (users db) /\ clerkId (snd d) = id) ->
  exists d, firstUserByClerkId db id = Some d.
Proof.
  intros [d [Hin Hid]]. unfold firstUserByClerkId.
  destruct (find _ (users db)) as [d'|] eqn:E; [eauto|].
  apply (find_none _ _ E) in Hin. rewrite Hid, String.eqb_refl in Hin.
  discriminate.
Qed.

Lemma firstUserByClerkId_None (db : DB) (id : string) :
  (forall d, In d (users db) -> clerkId (snd d) <> id) ->
  firstUserByClerkId db id = None.
Proof.
  intros H. unfold firstUserByClerkId.
  destruct (find _ (users db)) as [d|] eqn:E; [|reflexivity].
  apply find_some in E as [Hin Heq]. apply String.eqb_eq in Heq.
  destruct (H d Hin Heq).
Qed.

Lemma syncUser_existing (db : DB) (args : User) :
  (exists d, In d (users db) /\ clerkId (snd d) = clerkId args) ->
  syncUser db args = db.
Proof.
  intros H. apply firstUserByClerkId_Some in H as [d Hd].
  unfold syncUser. rewrite Hd. reflexivity.
Qed.

Lemma syncUser_new (db : DB) (args : User) :
  (forall d, In d (users db) -> clerkId (snd d) <> clerkId args) ->
  syncUser db args =
  mkDB (users db
          ++ [(nextId db,
               mkUser (clerkId args) (email args) (user_name args)
                 (image args))])
       (plans db) (S (nextId db)).
Proof.
  intros H. unfold syncUser.
  rewrite (firstUserByClerkId_None _ _ H). reflexivity.
Qed.

Lemma syncUser_cases (db : DB) (args : User) :
  (syncUser db args = db /\
   exists d, In d (users db) /\ clerkId (snd d) = clerkId args) \/
  (users (syncUser db args) = (users db ++ [(nextId db, args)])%list /\
   plans (syncUser db args) = plans db /\
   nextId (syncUser db args) = S (nextId db) /\
   forall d, In d (users db) -> clerkId (snd d) <> clerkId args).
Proof.
  unfold syncUser, firstUserByClerkId.
  destruct (find _ (users db)) as [d|] eqn:E.
  - left. split; [reflexivity|]. apply find_some in E as [Hin Heq].
    apply String.eqb_eq in Heq. eauto.
  - right. destruct args. simpl. repeat split.
    intros d Hin Heq. apply (find_none _ _ E) in Hin.
    simpl in Hin. rewrite Heq, String.eqb_refl in Hin. discriminate.
Qed.

Lemma syncUser_repeated (c : string) (calls : list User) (db : DB) :
  Forall (fun a => clerkId a = c) calls ->
  exists new,
    users (fold_left syncUser calls db) = (users db ++ new)%list /\
    (List.length new <= 1)%nat /\
    plans (fold_left syncUser calls db) = plans db.
Proof.
  intros Hall. revert db.
  induction Hall as [|a r Ha Hr IH]; intros db.
  - exists []. rewrite app_nil_r. simpl. auto.
  - simpl. destruct (syncUser_cases db a) as [[Heq _]|[Hu [Hp [_ Hnone]]]].
    + rewrite Heq. apply IH.
    + assert (forall db',
                 (exists d, In d (users db') /\ clerkId (snd d) = c) ->
                 fold_left syncUser r db' = db') as Hstable.
      { clear IH. induction Hr as [|b r' Hb _ IHr]; intros db' Hex.
        - reflexivity.
        - simpl. rewrite (syncUser_existing db' b).
          + apply IHr. assumption.
          + rewrite Hb. exact Hex. }
      rewrite Hstable.
      * exists [(nextId db, a)]. simpl. auto.
      * exists (nextId db, a). split; [|exact Ha].
        rewrite Hu. apply in_or_app. right. left. reflexivity.
Qed.

(** C9: when the [users] table holds a user with the given [clerkId],
    [syncUser] leaves the database as it is; when it holds none,
    [syncUser] adds one document, with the given [clerkId], [email],
    [name] and [image], and nothing else changes; and any number of calls
    that carry the same [clerkId] add at most one document. *)
Theorem C9_syncUser_inserts_once_per_clerkId
    (db : DB) (args : User) (calls : list User) :
  ((exists d, In d (users db) /\ clerkId (snd d) = clerkId args) ->
   syncUser db args = db) /\
  ((forall d, In d (users db) -> clerkId (snd d) <> clerkId args) ->
   syncUser db args =
   mkDB (users db
           ++ [(nextId db,
                mkUser (clerkId args) (email args) (user_name args)
                  (image args))])
        (plans db) (S (nextId db))) /\
  (Forall (fun a => clerkId a = clerkId args) calls ->
   exists new,
     users (fold_left syncUser calls db) = (users db ++ new)%list /\
     (List.length new <= 1)%nat /\
     plans (fold_left syncUser calls db) = plans db).
Proof.
  split; [|split].
  - apply syncUser_existing.
  - apply syncUser_new.
  - apply syncUser_repeated.
Qed.

Lemma C9_witness :
  let alice := mkUser "clerk_1" "a@example.org" "Alice" None in
  let bob := mkUser "clerk_2" "b@example.org" "Bob" (Some "b.png") in
  let db := mkDB [(0%nat, alice)] [] 1%nat in
  syncUser db (mkUser "clerk_1" "other@example.org" "Al" None) = db /\
  syncUser db bob = mkDB [(0%nat, alice); (1%nat, bob)] [] 2%nat /\
  exists new,
    users (fold_left syncUser [bob; bob; bob] db) = (users db ++ new)%list /\
    (List.length new <= 1)%nat /\
    plans (fold_left syncUser [bob; bob; bob] db) = plans db.
Proof.
  intros alice bob db.
  destruct (C9_syncUser_inserts_once_per_clerkId db
              (mkUser "clerk_1" "other@example.org" "Al" None) [])
    as [Hexisting _].
  destruct (C9_syncUser_inserts_once_per_clerkId db bob [bob; bob; bob])
    as [_ [Hnew Hrepeated]].
  split; [|split].
  - apply Hexisting. exists (0%nat, alice).
    split; [left; reflexivity|reflexivity].
  - apply Hnew. intros d [<-|[]]. discriminate.
  - apply Hrepeated. repeat constructor.
Defined.

(** ** The [/vapi/generate-program] action *)

Import GenerateProgram.
Local Open Scope action_scope.

Arguments workoutPromptText : simpl never.
Arguments dietPromptText : simpl never.

Lemma bindM_lift {A B : Type} (r : result A) (k : A -> M B) (w : World) :
  bindM (lift r) k w =
  match r with Ok a => k a w | Throw => (Throw, w) end.
Proof. unfold bindM, lift. destruct r; reflexivity. Qed.

Lemma bindM_generate {B : Type}
    (generateContent : nat -> string -> result (result string))
    (n : nat) (p : string) (k : result string -> M B) (w : World) :
  bindM (callGenerateContent generateContent n p) k w =
  match generateContent n p with
  | Ok a => k a (mkWorld (db w) (calls w ++ [GenerateContent p]))
  | Throw => (Throw, mkWorld (db w) (calls w ++ [GenerateContent p]))
  end.
Proof.
  unfold bindM, callGenerateContent. destruct (generateContent n p);
    reflexivity.
Qed.

Lemma bindM_runCreatePlan {B : Type} (args : CreatePlanArgs)
    (k : Id -> M B) (w : World) :
  bindM (runCreatePlan args) k w =
  match createPlan (db w) args with
  | Ok (id, db') => k id (mkWorld db' (calls w ++ [RunCreatePlan args]))
  | Throw => (Throw, mkWorld (db w) (calls w ++ [RunCreatePlan args]))
  end.
Proof.
  unfold bindM, runCreatePlan. destruct (createPlan (db w) args) as [[id db']|];
    reflexivity.
Qed.

Section ActionProperties.
Variable request_json : result value.
Variable generateContent : nat -> string -> result (result string).
Variable JSON_parse : string -> result value.

Let run := tryBlock request_json generateContent JSON_parse.
Let handle := handler request_json generateContent JSON_parse.

(** The try block either throws without having run a mutation, the
    database untouched, or has made its two model calls, parsed both
    answers and then run [createPlan]. *)
Lemma tryBlock_cases (w : World) (out : result Response * World) :
  run w = out ->
  (fst out = Throw /\ db (snd out) = db w /\
   exists evs,
     calls (snd out) = (calls w ++ evs)%list /\
     forallb isGenerateContent evs = true)
  \/
  (exists p1 p2 t1 t2 j1 j2 args,
     generateContent 0 p1 = Ok (Ok t1) /\ JSON_parse t1 = Ok j1 /\
     generateContent 1 p2 = Ok (Ok t2) /\ JSON_parse t2 = Ok j2 /\
     calls (snd out)
     = (calls w
          ++ [GenerateContent p1; GenerateContent p2; RunCreatePlan args])%list).
Proof.
  intros H. unfold run, tryBlock in H.
  repeat (rewrite bindM_lift in H;
          match type of H with
          | match ?r with Ok _ => _ | Throw => _ end = _ =>
              destruct r eqn:?
          end;
          [|subst out; left; simpl; repeat split;
            try (exists []; rewrite app_nil_r; split; reflexivity);
            try (eexists; split; [rewrite <- ?app_assoc; reflexivity
                                 |reflexivity])]).
  all: try (rewrite bindM_generate in H;
            match type of H with
            | match ?r with Ok _ => _ | Throw => _ end = _ =>
                destruct r eqn:?
            end;
            [|subst out; left; simpl; repeat split;
              eexists; split; [rewrite <- ?app_assoc; reflexivity
                              |reflexivity]]).
  all: try (rewrite bindM_generate in H;
            match type of H with
            | match ?r with Ok _ => _ | Throw => _ end = _ =>
                destruct r eqn:?
            end;
            [|subst out; left; simpl; repeat split;
              eexists; split; [rewrite <- ?app_assoc; reflexivity
                              |reflexivity]]).
  repeat (rewrite bindM_lift in H;
          match type of H with
          | match ?r with Ok _ => _ | Throw => _ end = _ =>
              destruct r eqn:?
          end;
          [|subst out; left; simpl; repeat split;
            eexists; split; [rewrite <- ?app_assoc; reflexivity
                            |reflexivity]]).
  rewrite bindM_runCreatePlan in H.
  right. subst.
  do 7 eexists. repeat split; try eassumption.
  destruct (createPlan _ _) as [[id db']|]; simpl;
    rewrite <- !app_assoc; reflexivity.
Qed.
End ActionProperties.

Lemma handler_tryBlock (request_json : result value)
    (generateContent : nat -> string -> result (result string))
    (JSON_parse : string -> result value) (w : World) :
  handler request_json generateContent JSON_parse w =
  (match fst (tryBlock request_json generateContent JSON_parse w) with
   | Ok r => r
   | Throw => mkResponse 500 false None
   end,
   snd (tryBlock request_json generateContent JSON_parse w)).
Proof.
  unfold handler.
  destruct (tryBlock request_json generateContent JSON_parse w) as [[r|] w'];
    reflexivity.
Qed.

(** C3: take any call to the model that the action made, the [n]-th, with
    prompt [p].  If that call threw, or reading its text threw, or its text
    did not parse, then the action answers 500 with [success: false], the
    database is as it was, and the only calls the action made are calls to
    the model: [createPlan] was not run.  This covers a diet call that
    fails after the workout call succeeded. *)
Theorem C3_failed_generation_persists_nothing
    (request_json : result value)
    (generateContent : nat -> string -> result (result string))
    (JSON_parse : string -> result value)
    (w : World) (evs : list Event) (n : nat) (p : string) :
  calls (snd (handler request_json generateContent JSON_parse w))
    = (calls w ++ evs)%list ->
  nth_error evs n = Some (GenerateContent p) ->
  (generateContent n p = Throw \/
   generateContent n p = Ok Throw \/
   exists t, generateContent n p = Ok (Ok t) /\ JSON_parse t = Throw) ->
  handler request_json generateContent JSON_parse w
    = (mkResponse 500 false None,
       snd (handler request_json generateContent JSON_parse w)) /\
  db (snd (handler request_json generateContent JSON_parse w)) = db w /\
  forallb isGenerateContent evs = true.
Proof.
  rewrite handler_tryBlock. simpl snd.
  intros Hcalls Hnth Hfail.
  destruct (tryBlock_cases request_json generateContent JSON_parse w _ eq_refl)
    as [[Hres [Hdb [evs' [Hevs Hall]]]]
       |[p1 [p2 [t1 [t2 [j1 [j2 [args [G1 [P1 [G2 [P2 Hevs]]]]]]]]]]]].
  - rewrite Hres. rewrite Hevs in Hcalls. apply app_inv_head in Hcalls.
    subst evs'. auto.
  - exfalso. rewrite Hevs in Hcalls. apply app_inv_head in Hcalls.
    subst evs.
    destruct n as [|[|[|n]]]; simpl in Hnth; try discriminate.
    + injection Hnth as <-.
      destruct Hfail as [F|[F|[t [F1 F2]]]]; congruence.
    + injection Hnth as <-.
      destruct Hfail as [F|[F|[t [F1 F2]]]]; congruence.
    + destruct n; discriminate.
Qed.

(** C6: when the request body is an object, the two model calls return
    texts that parse and the parsed plans validate, the action runs
    [createPlan] once, after the two model calls, with the request's
    [user_id], the name made of the goal and [Plan], the two validated
    plans and [isActive: true]; the [users] table and the plans stored
    before are kept as they were; and when [user_id] is a string and the
    two plans fit the schema, the [plans] table gains one document with
    these fields and the action answers 200 with that document's id. *)
Theorem C6_success_path_inserts_one_plan
    (request_json : result value)
    (generateContent : nat -> string -> result (result string))
    (JSON_parse : string -> result value)
    (w : World) (payload j1 j2 wp dp : value) (a g wt t1 t2 : string) :
  request_json = Ok payload ->
  nullish payload = false ->
  ToString (prop payload "age") = Ok a ->
  ToString (prop payload "fitness_goal") = Ok g ->
  ToString (prop payload "weight") = Ok wt ->
  generateContent 0%nat (workoutPromptText a g wt) = Ok (Ok t1) ->
  generateContent 1%nat (dietPromptText g) = Ok (Ok t2) ->
  JSON_parse t1 = Ok j1 -> validateWorkoutPlan j1 = Ok wp ->
  JSON_parse t2 = Ok j2 -> validateDietPlan j2 = Ok dp ->
  let args :=
    mkCreatePlanArgs (prop payload "user_id") (VStr (g ++ " Plan")) wp dp
      (VBool true) in
  let out := handler request_json generateContent JSON_parse w in
  calls (snd out)
    = (calls w
         ++ [GenerateContent (workoutPromptText a g wt);
             GenerateContent (dietPromptText g);
             RunCreatePlan args])%list /\
  users (db (snd out)) = users (db w) /\
  (exists new, plans (db (snd out)) = (plans (db w) ++ new)%list) /\
  (forall uid,
     prop payload "user_id" = VStr uid ->
     matches workoutPlanSchema wp = true ->
     matches dietPlanSchema dp = true ->
     fst out = mkResponse 200 true (Some (nextId (db w))) /\
     plans (db (snd out))
     = (plans (db w)
          ++ [(nextId (db w), mkPlan uid (g ++ " Plan") wp dp true)])%list).
Proof.
  intros Hreq Hnull Ha Hg Hwt G1 G2 P1 V1 P2 V2 args out.
  assert (out =
          match createPlan (db w) args with
          | Ok (id, db') =>
              (mkResponse 200 true (Some id),
               mkWorld db'
                 (calls w
                    ++ [GenerateContent (workoutPromptText a g wt);
                        GenerateContent (dietPromptText g);
                        RunCreatePlan args]))
          | Throw =>
              (mkResponse 500 false None,
               mkWorld (db w)
                 (calls w
                    ++ [GenerateContent (workoutPromptText a g wt);
                        GenerateContent (dietPromptText g);
                        RunCreatePlan args]))
          end) as Hout.
  { unfold out, handler, tryBlock.
    rewrite bindM_lift, Hreq. cbv beta iota.
    do 4 (rewrite bindM_lift, (Get_prop payload) by assumption;
          cbv beta iota).
    rewrite bindM_lift, Ha, Hg, Hwt. simpl bind. cbv beta iota.
    rewrite bindM_lift. cbv beta iota.
    rewrite bindM_generate, G1. cbv beta iota.
    rewrite bindM_generate, G2. cbv beta iota.
    rewrite bindM_lift. cbv beta iota.
    rewrite bindM_lift, P1. cbv beta iota.
    rewrite bindM_lift, V1. cbv beta iota.
    rewrite bindM_lift. cbv beta iota.
    rewrite bindM_lift, P2. cbv beta iota.
    rewrite bindM_lift, V2. cbv beta iota.
    rewrite bindM_lift. cbv beta iota.
    rewrite bindM_runCreatePlan. simpl db. simpl calls.
    fold args. rewrite <- !app_assoc. simpl app.
    destruct (createPlan (db w) args) as [[id db']|]; reflexivity. }
  assert (forall id db', createPlan (db w) args = Ok (id, db') ->
            exists uid,
              prop payload "user_id" = VStr uid /\ id = nextId (db w) /\
              users db' = users (db w) /\
              plans db'
              = (plans (db w)
                   ++ [(id, mkPlan uid (g ++ " Plan") wp dp true)])%list)
    as Hcreate.
  { intros id db' H.
    cbv beta iota delta
      [createPlan checkCreatePlanArgs args arg_userId arg_name arg_isActive
       arg_workoutPlan arg_dietPlan bind] in H.
    destruct (prop payload "user_id") as [| | | |uid| |];
      try discriminate H.
    destruct (matches workoutPlanSchema wp && matches dietPlanSchema dp)
      eqn:Hm; [|discriminate H].
    cbv beta iota delta
      [createPlanHandler insertPlan bind workoutPlan dietPlan userId name
       isActive] in H.
    rewrite Hm in H. cbv beta iota delta [fst snd] in H.
    injection H as <- <-. exists uid. auto. }
  rewrite Hout. clear Hout.
  destruct (createPlan (db w) args) as [[id db']|] eqn:Hc.
  - destruct (Hcreate id db' eq_refl) as [uid [Hu [Hid [Husers Hplans]]]].
    cbn [fst snd db calls]. split; [reflexivity|]. split; [assumption|].
    split; [eexists; exact Hplans|].
    intros uid' Hu' _ _. rewrite Hu in Hu'. injection Hu' as <-.
    subst id. split; [reflexivity|exact Hplans].
  - cbn [fst snd db calls]. split; [reflexivity|]. split; [reflexivity|].
    split; [exists []; rewrite app_nil_r; reflexivity|].
    intros uid Hu Hw Hd. exfalso. revert Hc.
    cbv beta iota delta
      [createPlan checkCreatePlanArgs args arg_userId arg_name
       arg_isActive arg_workoutPlan arg_dietPlan bind].
    rewrite Hu, Hw, Hd. cbv beta iota delta [andb].
    cbv beta iota delta
      [createPlanHandler insertPlan bind workoutPlan dietPlan userId name
       isActive].
    rewrite Hw, Hd. discriminate.
Qed.

Lemma C3_witness :
  let out :=
    handler (Ok Scenario.payload) Scenario.modelFailingOnDiet Scenario.parse
      Scenario.emptyWorld in
  let evs :=
    [GenerateContent (workoutPromptText "30" "strength" "80");
     GenerateContent (dietPromptText "strength")] in
  calls (snd out) = (calls Scenario.emptyWorld ++ evs)%list /\
  Scenario.modelFailingOnDiet 1 (dietPromptText "strength") = Throw /\
  out = (mkResponse 500 false None, snd out) /\
  db (snd out) = db Scenario.emptyWorld /\
  forallb isGenerateContent evs = true.
Proof.
  intros out evs.
  assert (calls (snd out) = (calls Scenario.emptyWorld ++ evs)%list) as Hc
    by (vm_compute; reflexivity).
  split; [exact Hc|]. split; [reflexivity|].
  apply (C3_failed_generation_persists_nothing
           (Ok Scenario.payload) Scenario.modelFailingOnDiet Scenario.parse
           Scenario.emptyWorld evs 1 (dietPromptText "strength")).
  - exact Hc.
  - reflexivity.
  - left. reflexivity.
Defined.

Lemma C6_witness :
  let out :=
    handler (Ok Scenario.payload) Scenario.model Scenario.parse
      Scenario.emptyWorld in
  exists wp dp,
    validateWorkoutPlan Scenario.workoutJson = Ok wp /\
    validateDietPlan Scenario.dietJson = Ok dp /\
    fst out = mkResponse 200 true (Some 0%nat) /\
    plans (db (snd out))
    = [(0%nat, mkPlan "user_1" "strength Plan" wp dp true)] /\
    calls (snd out)
    = [GenerateContent (workoutPromptText "30" "strength" "80");
       GenerateContent (dietPromptText "strength");
       RunCreatePlan
         (mkCreatePlanArgs (VStr "user_1") (VStr "strength Plan") wp dp
            (VBool true))].
Proof.
  intros out.
  assert (exists wp, validateWorkoutPlan Scenario.workoutJson = Ok wp /\
                     matches workoutPlanSchema wp = true)
    as [wp [Hwp Hmw]].
  { eexists. split; vm_compute; reflexivity. }
  assert (exists dp, validateDietPlan Scenario.dietJson = Ok dp /\
                     matches dietPlanSchema dp = true)
    as [dp [Hdp Hmd]].
  { eexists. split; vm_compute; reflexivity. }
  exists wp, dp.
  destruct (C6_success_path_inserts_one_plan
              (Ok Scenario.payload) Scenario.model Scenario.parse
              Scenario.emptyWorld Scenario.payload
              Scenario.workoutJson Scenario.dietJson wp dp
              "30" "strength" "80" Scenario.workoutText Scenario.dietText
              eq_refl eq_refl eq_refl eq_refl eq_refl eq_refl eq_refl
              eq_refl Hwp eq_refl Hdp)
    as [Hcalls [_ [_ Hsuccess]]].
  destruct (Hsuccess "user_1" eq_refl Hmw Hmd) as [Hresp Hplans].
  repeat split; assumption.
Defined.

(** * Further properties *)

(** ** The validators: lists *)

Lemma callMap_non_array (v : value) (f : value -> result value) :
  truthy v = true -> isArray v = false ->
  callMap (or_ v (VArr [])) f = Throw.
Proof.
  intros Ht Ha. unfold or_. rewrite Ht. destruct v; try discriminate;
    reflexivity.
Qed.

Lemma bind_Throw_r {A B : Type} (m : result A) :
  bind m (fun _ => @Throw B) = Throw.
Proof. destruct m; reflexivity. Qed.

Lemma mapM_Throw_at {A B : Type} (f : A -> result B) (l : list A) (x : A) :
  In x l -> f x = Throw -> mapM f l = Throw.
Proof.
  intros Hin Hx. induction l as [|y r IH]; [destruct Hin|].
  simpl. destruct Hin as [->|Hin].
  - rewrite Hx. reflexivity.
  - fold (mapM f). rewrite (IH Hin). destruct (f y); reflexivity.
Qed.

(** A truthy value that is not an array, given for [exercises], for the
    [routines] of an exercise or for [meals], makes the validator throw:
    the value has no [map] to call. *)
Theorem validators_throw_on_truthy_non_array (x ex : value)
    (l : list value) :
  nullish x = false ->
  (truthy (prop x "exercises") = true ->
   isArray (prop x "exercises") = false ->
   validateWorkoutPlan x = Throw) /\
  (prop x "exercises" = VArr l -> In ex l -> nullish ex = false ->
   truthy (prop ex "routines") = true ->
   isArray (prop ex "routines") = false ->
   validateWorkoutPlan x = Throw) /\
  (truthy (prop x "meals") = true ->
   isArray (prop x "meals") = false ->
   validateDietPlan x = Throw).
Proof.
  intros Hn. split; [|split].
  - intros Ht Ha.
    unfold validateWorkoutPlan. rewrite !(Get_prop x) by assumption.
    cbv beta iota delta [bind]. rewrite (callMap_non_array _ _ Ht Ha).
    reflexivity.
  - intros Hl Hin Hex Ht Ha.
    unfold validateWorkoutPlan. rewrite !(Get_prop x) by assumption.
    cbv beta iota delta [bind]. rewrite Hl. unfold or_. simpl truthy.
    cbv beta iota delta [callMap bind].
    rewrite (mapM_Throw_at validateExercise l ex Hin); [reflexivity|].
    unfold validateExercise. rewrite !(Get_prop ex) by assumption.
    cbv beta iota delta [bind]. rewrite (callMap_non_array _ _ Ht Ha).
    destruct (ToString _); reflexivity.
  - intros Ht Ha.
    unfold validateDietPlan. rewrite !(Get_prop x) by assumption.
    cbv beta iota delta [bind]. rewrite (callMap_non_array _ _ Ht Ha).
    destruct (ToNumber _); reflexivity.
Qed.

Lemma validators_throw_on_truthy_non_array_witness :
  validateWorkoutPlan (VObj [("exercises", VObj [])]) = Throw /\
  validateWorkoutPlan
    (VObj [("exercises",
            VArr [VObj [("day", VStr "Mon"); ("routines", VStr "rest")]])])
    = Throw /\
  validateDietPlan (VObj [("meals", VNum (ofZ 3))]) = Throw.
Proof.
  destruct (validators_throw_on_truthy_non_array
              (VObj [("exercises", VObj [])]) VNull [] eq_refl) as [H1 _].
  destruct (validators_throw_on_truthy_non_array
              (VObj [("exercises",
                      VArr [VObj [("day", VStr "Mon");
                                  ("routines", VStr "rest")]])])
              (VObj [("day", VStr "Mon"); ("routines", VStr "rest")])
              [VObj [("day", VStr "Mon"); ("routines", VStr "rest")]]
              eq_refl) as [_ [H2 _]].
  destruct (validators_throw_on_truthy_non_array
              (VObj [("meals", VNum (ofZ 3))]) VNull [] eq_refl)
    as [_ [_ H3]].
  split; [|split].
  - apply H1; reflexivity.
  - apply H2; try reflexivity. left. reflexivity.
  - apply H3; reflexivity.
Defined.

(** One [null] or [undefined] entry in [exercises], or in [meals], makes
    the whole validation throw: no plan is returned without it. *)
Theorem validators_throw_on_null_entry (x : value) (l : list value)
    (e : value) :
  nullish x = false -> In e l -> nullish e = true ->
  (prop x "exercises" = VArr l -> validateWorkoutPlan x = Throw) /\
  (prop x "meals" = VArr l -> validateDietPlan x = Throw).
Proof.
  intros Hn Hin He. split; intros Hl.
  - unfold validateWorkoutPlan. rewrite !(Get_prop x) by assumption.
    cbv beta iota delta [bind]. rewrite Hl. unfold or_. simpl truthy.
    cbv beta iota delta [callMap bind].
    rewrite (mapM_Throw_at validateExercise l e Hin); [reflexivity|].
    destruct e; try discriminate; reflexivity.
  - unfold validateDietPlan. rewrite !(Get_prop x) by assumption.
    cbv beta iota delta [bind]. rewrite Hl. unfold or_. simpl truthy.
    cbv beta iota delta [callMap bind].
    rewrite (mapM_Throw_at validateMeal l e Hin).
    + destruct (ToNumber _); reflexivity.
    + destruct e; try discriminate; reflexivity.
Qed.

Lemma validators_throw_on_null_entry_witness :
  validateWorkoutPlan
    (VObj [("exercises", VArr [VObj [("day", VStr "Mon")]; VNull])]) = Throw /\
  validateDietPlan
    (VObj [("meals", VArr [VNull; VObj [("name", VStr "Lunch")]])]) = Throw.
Proof.
  split.
  - apply (validators_throw_on_null_entry
             (VObj [("exercises", VArr [VObj [("day", VStr "Mon")]; VNull])])
             [VObj [("day", VStr "Mon")]; VNull] VNull eq_refl).
    + right. left. reflexivity.
    + reflexivity.
    + reflexivity.
  - apply (validators_throw_on_null_entry
             (VObj [("meals", VArr [VNull; VObj [("name", VStr "Lunch")]])])
             [VNull; VObj [("name", VStr "Lunch")]] VNull eq_refl).
    + left. reflexivity.
    + reflexivity.
    + reflexivity.
Defined.

Lemma or_elems (ok : value -> bool) (v : value) :
  arrayOrFalsy ok v = true -> or_ v (VArr []) = VArr (elems v).
Proof.
  intros H. unfold or_. destruct (truthy v) eqn:Ht.
  - destruct v; try reflexivity; unfold arrayOrFalsy in H;
      rewrite Ht in H; discriminate.
  - destruct v; try reflexivity; simpl in Ht; discriminate.
Qed.

(** The [schedule] of the result is the given [schedule], entries
    untouched, when that is an array, and the empty array otherwise; and
    the exercises of the result are the validated entries of the given
    array, as many and in the same order. *)
Theorem validateWorkoutPlan_schedule_and_exercises (x : value) :
  workoutInputOk x = true ->
  exists p,
    validateWorkoutPlan x = Ok p /\
    prop p "schedule"
    = (if isArray (prop x "schedule") then prop x "schedule" else VArr []) /\
    Forall2 (fun ex ex' => validateExercise ex = Ok ex')
      (elems (prop x "exercises")) (elems (prop p "exercises")) /\
    List.length (elems (prop p "exercises"))
    = List.length (elems (prop x "exercises")).
Proof.
  intros Hok. destruct (validateWorkoutPlan_total x Hok) as [p [Hp _]].
  destruct (validateWorkoutPlan_inv _ _ Hp) as [_ [exs [exs' [Hor [Hm ->]]]]].
  eexists. split; [exact Hp|]. split; [reflexivity|].
  apply mapM_Forall2 in Hm.
  assert (exs = elems (prop x "exercises")) as ->.
  { apply andb_true_iff in Hok as [_ Harr].
    rewrite (or_elems _ _ Harr) in Hor. injection Hor as <-. reflexivity. }
  split; [exact Hm|].
  symmetry. exact (Forall2_length Hm).
Qed.

Lemma validateWorkoutPlan_schedule_and_exercises_witness :
  let x :=
    VObj [("schedule", VArr [VNum (ofZ 1); VStr "Wed"]);
          ("exercises", VArr [VObj [("day", VStr "Mon")]; VObj []])] in
  exists p,
    validateWorkoutPlan x = Ok p /\
    prop p "schedule" = VArr [VNum (ofZ 1); VStr "Wed"] /\
    List.length (elems (prop p "exercises")) = 2%nat.
Proof.
  intros x.
  destruct (validateWorkoutPlan_schedule_and_exercises x eq_refl)
    as [p [Hp [Hs [_ Hlen]]]].
  exists p. repeat split; assumption.
Defined.

(** ** The validators and the schema *)

Import Invariants.

Lemma matches_strings (ss : list string) :
  matches (v_array v_string) (VArr (map VStr ss)) = true.
Proof. induction ss as [|s r IH]; [reflexivity|exact IH]. Qed.

Lemma matches_numbers (ns : list number) :
  matches (v_array v_number) (VArr (map VNum ns)) = true.
Proof. induction ns as [|n r IH]; [reflexivity|exact IH]. Qed.

Lemma forallb_Forall2_out {A : Type} (R : A -> value -> Prop)
    (Q : value -> bool) (l : list A) (l' : list value) :
  (forall x y, R x y -> Q y = true) ->
  Forall2 R l l' -> forallb Q l' = true.
Proof.
  intros HQ H. induction H as [|x y r r' Hxy _ IH]; [reflexivity|].
  simpl. rewrite (HQ _ _ Hxy), IH. reflexivity.
Qed.

Lemma validateMeal_fits (m m' : value) :
  validateMeal m = Ok m' -> matches mealSchema m' = true.
Proof.
  intros H.
  apply validateMeal_inv in H as [_ [name [fs [ps [_ [_ [_ ->]]]]]]].
  change (matches (v_array v_string) (VArr (map VStr fs))
          && (matches (v_array v_number) (VArr (map VNum ps)) && true)
          && true = true).
  rewrite matches_strings, matches_numbers. reflexivity.
Qed.

Lemma validateRoutine_fits (r r' : value) :
  validateRoutine r = Ok r' -> matches routineSchema r' = true.
Proof.
  intros H.
  apply validateRoutine_inv in H
    as [_ [name [s [p [d [ds [_ [_ [_ [_ [_ ->]]]]]]]]]]].
  reflexivity.
Qed.

Lemma validateExercise_fits (ex ex' : value) :
  validateExercise ex = Ok ex' -> matches exerciseSchema ex' = true.
Proof.
  intros H.
  apply validateExercise_inv in H as [_ [day [rs [rs' [_ [_ [Hm ->]]]]]]].
  apply mapM_Forall2 in Hm.
  change (forallb (matches routineSchema) rs' && true && true = true).
  rewrite (forallb_Forall2_out _ _ _ _ validateRoutine_fits Hm).
  reflexivity.
Qed.

(** Whatever [validateDietPlan] returns fits the [dietPlan] field of the
    schema: [createPlan] will not reject it. *)
Theorem validateDietPlan_fits_schema (x p : value) :
  validateDietPlan x = Ok p -> matches dietPlanSchema p = true.
Proof.
  intros H.
  apply validateDietPlan_inv in H as [_ [c [ms [ms' [_ [_ [Hm ->]]]]]]].
  apply mapM_Forall2 in Hm.
  change (forallb (matches mealSchema) ms' && true && true = true).
  rewrite (forallb_Forall2_out _ _ _ _ validateMeal_fits Hm).
  reflexivity.
Qed.

Lemma validateDietPlan_fits_schema_witness :
  exists p,
    validateDietPlan
      (VObj [("dailyCalories", VNull);
             ("meals", VArr [VObj [("foods", VArr [VNum (ofZ 1)]);
                                   ("protein", VArr [VStr "x"])]])]) = Ok p /\
    matches dietPlanSchema p = true.
Proof.
  eexists. split.
  - vm_compute. reflexivity.
  - apply (validateDietPlan_fits_schema
             (VObj [("dailyCalories", VNull);
                    ("meals", VArr [VObj [("foods", VArr [VNum (ofZ 1)]);
                                          ("protein", VArr [VStr "x"])]])])).
    vm_compute. reflexivity.
Defined.

(** What [validateWorkoutPlan] returns fits the [workoutPlan] field of the
    schema exactly when the given [schedule] is not an array or is an
    array of strings: the entries of [schedule] are passed on as they are,
    so one entry that is not a string makes [createPlan] reject the plan. *)
Theorem validateWorkoutPlan_fits_schema_iff_schedule_strings (x p : value) :
  validateWorkoutPlan x = Ok p ->
  matches workoutPlanSchema p = forallb isStr (elems (prop x "schedule")).
Proof.
  intros H.
  apply validateWorkoutPlan_inv in H as [_ [exs [exs' [_ [Hm ->]]]]].
  apply mapM_Forall2 in Hm.
  pose proof (forallb_Forall2_out _ _ _ _ validateExercise_fits Hm) as Hexs.
  assert (forall l,
            matches workoutPlanSchema
              (VObj [("schedule", VArr l); ("exercises", VArr exs')])
            = forallb isStr l) as Hfit.
  { intros l.
    change (forallb isStr l
            && (forallb (matches exerciseSchema) exs' && true) && true
            = forallb isStr l).
    rewrite Hexs, !andb_true_r. reflexivity. }
  destruct (prop x "schedule") as [| | | | |l|]; apply Hfit.
Qed.

Lemma validateWorkoutPlan_fits_schema_iff_schedule_strings_witness :
  exists p q,
    validateWorkoutPlan (VObj [("schedule", VArr [VStr "Mon"; VNum (ofZ 3)])])
      = Ok p /\
    matches workoutPlanSchema p = false /\
    validateWorkoutPlan (VObj [("schedule", VArr [VStr "Mon"; VStr "Wed"])])
      = Ok q /\
    matches workoutPlanSchema q = true.
Proof.
  eexists. eexists. split; [vm_compute; reflexivity|].
  split.
  - rewrite (validateWorkoutPlan_fits_schema_iff_schedule_strings
               (VObj [("schedule", VArr [VStr "Mon"; VNum (ofZ 3)])]));
      [reflexivity|vm_compute; reflexivity].
  - split; [vm_compute; reflexivity|].
    rewrite (validateWorkoutPlan_fits_schema_iff_schedule_strings
               (VObj [("schedule", VArr [VStr "Mon"; VStr "Wed"])]));
      [reflexivity|vm_compute; reflexivity].
Defined.

(** ** [createPlan] and [getUserPlans] *)

Lemma createPlan_inv (db db' : DB) (a : CreatePlanArgs) (id : Id) :
  createPlan db a = Ok (id, db') ->
  exists uid n act,
    arg_userId a = VStr uid /\ arg_name a = VStr n /\
    arg_isActive a = VBool act /\
    matches workoutPlanSchema (arg_workoutPlan a) = true /\
    matches dietPlanSchema (arg_dietPlan a) = true /\
    id = nextId db /\
    db' = mkDB (users db)
            (plans db
               ++ [(nextId db,
                    mkPlan uid n (arg_workoutPlan a) (arg_dietPlan a) act)])
            (S (nextId db)).
Proof.
  intros H.
  cbv beta iota delta [createPlan checkCreatePlanArgs bind] in H.
  destruct (arg_userId a) as [| | | |uid| |]; try discriminate H.
  destruct (arg_name a) as [| | | |n| |]; try discriminate H.
  destruct (arg_isActive a) as [| |act| | | |]; try discriminate H.
  destruct (matches workoutPlanSchema (arg_workoutPlan a)
            && matches dietPlanSchema (arg_dietPlan a)) eqn:Hm;
    [|discriminate H].
  cbv beta iota delta
    [createPlanHandler insertPlan bind workoutPlan dietPlan userId name
     isActive] in H.
  rewrite Hm in H. cbv beta iota delta [fst snd] in H.
  injection H as <- <-.
  apply andb_true_iff in Hm as [Hw Hd].
  exists uid, n, act. repeat split; assumption.
Qed.

Lemma getUserPlans_app (db : DB) (uid : string) (d : Id * Plan) :
  getUserPlans
    (mkDB (users db) (plans db ++ [d]) (S (nextId db))) uid
  = if String.eqb (userId (snd d)) uid then d :: getUserPlans db uid
    else getUserPlans db uid.
Proof.
  unfold getUserPlans. cbn [plans]. rewrite filter_app. cbn [filter].
  destruct (String.eqb (userId (snd d)) uid).
  - rewrite rev_app_distr. reflexivity.
  - rewrite app_nil_r. reflexivity.
Qed.

(** A plan that [createPlan] stored is the first plan [getUserPlans]
    returns for its user, ahead of the plans the user had; for every other
    user the list is what it was. *)
Theorem getUserPlans_after_createPlan
    (db db' : DB) (a : CreatePlanArgs) (id : Id) :
  createPlan db a = Ok (id, db') ->
  exists uid n act,
    arg_userId a = VStr uid /\ arg_name a = VStr n /\
    arg_isActive a = VBool act /\
    getUserPlans db' uid
    = (id, mkPlan uid n (arg_workoutPlan a) (arg_dietPlan a) act)
        :: getUserPlans db uid /\
    forall other, other <> uid ->
      getUserPlans db' other = getUserPlans db other.
Proof.
  intros H.
  destruct (createPlan_inv _ _ _ _ H)
    as [uid [n [act [Hu [Hn [Ha [_ [_ [-> ->]]]]]]]]].
  exists uid, n, act. repeat (split; [assumption|]). split.
  - rewrite getUserPlans_app. cbn [snd userId].
    rewrite String.eqb_refl. reflexivity.
  - intros other Hne. rewrite getUserPlans_app. cbn [snd userId].
    destruct (String.eqb uid other) eqn:E; [|reflexivity].
    apply String.eqb_eq in E. congruence.
Qed.

(** [getUserPlans] returns the plans of the given user, all of them and no
    other. *)
Theorem getUserPlans_exactly_the_users_plans
    (db : DB) (uid : string) (d : Id * Plan) :
  In d (getUserPlans db uid) <-> In d (plans db) /\ userId (snd d) = uid.
Proof.
  unfold getUserPlans. rewrite <- in_rev, filter_In, String.eqb_eq.
  reflexivity.
Qed.


Lemma getUserPlans_after_createPlan_witness :
  exists db',
    createPlan Scenario.twoPlans (Scenario.planArgs "user_1" "Second")
      = Ok (3%nat, db') /\
    getUserPlans db' "user_1"
    = [(3%nat,
        mkPlan "user_1" "Second" Scenario.restPlan Scenario.fastPlan true);
       (1%nat,
        mkPlan "user_1" "First" Scenario.restPlan Scenario.fastPlan true)] /\
    getUserPlans db' "user_2" = getUserPlans Scenario.twoPlans "user_2".
Proof.
  assert (exists db',
            createPlan Scenario.twoPlans (Scenario.planArgs "user_1" "Second")
            = Ok (3%nat, db')) as [db' Hc].
  { eexists. vm_compute. reflexivity. }
  exists db'. split; [exact Hc|].
  destruct (getUserPlans_after_createPlan _ _ _ _ Hc)
    as [uid [n [act [Hu [Hn [Ha [Hfirst Hothers]]]]]]].
  injection Hu as <-. injection Hn as <-. injection Ha as <-.
  split.
  - rewrite Hfirst. reflexivity.
  - apply Hothers. discriminate.
Defined.


(** [createPlan] leaves the [isActive] flag of the stored plans alone: a
    user who had active plans and stores another active one has them all
    active, the new one first. *)
Theorem createPlan_never_deactivates
    (db db' : DB) (a : CreatePlanArgs) (id : Id) (uid : string) :
  createPlan db a = Ok (id, db') ->
  arg_userId a = VStr uid ->
  arg_isActive a = VBool true ->
  exists plan,
    isActive plan = true /\
    activePlansOf db' uid = (id, plan) :: activePlansOf db uid /\
    users db' = users db /\
    plans db' = (plans db ++ [(id, plan)])%list.
Proof.
  intros H Hu Ha.
  destruct (createPlan_inv _ _ _ _ H)
    as [uid' [n [act [Hu' [_ [Ha' [_ [_ [-> ->]]]]]]]]].
  rewrite Hu in Hu'. injection Hu' as <-.
  rewrite Ha in Ha'. injection Ha' as <-.
  eexists. split; [|split; [|split; reflexivity]].
  - reflexivity.
  - unfold activePlansOf. rewrite getUserPlans_app. cbn [snd userId].
    rewrite String.eqb_refl. reflexivity.
Qed.

Lemma createPlan_never_deactivates_witness :
  exists db' plan,
    createPlan Scenario.twoPlans (Scenario.planArgs "user_1" "Second")
      = Ok (3%nat, db') /\
    activePlansOf db' "user_1"
    = [(3%nat, plan);
       (1%nat,
        mkPlan "user_1" "First" Scenario.restPlan Scenario.fastPlan true)].
Proof.
  assert (exists db',
            createPlan Scenario.twoPlans (Scenario.planArgs "user_1" "Second")
            = Ok (3%nat, db')) as [db' Hc].
  { eexists. vm_compute. reflexivity. }
  destruct (createPlan_never_deactivates _ _ _ _ "user_1" Hc eq_refl eq_refl)
    as [plan [_ [Hactive _]]].
  exists db', plan. split; [exact Hc|]. rewrite Hactive. reflexivity.
Defined.

(** ** [syncUser]: invariants *)

(** [syncUser] never removes or alters a stored user or plan, and it keeps
    the [users] table free of duplicate [clerkId]s and the identifiers
    below the next one, whatever the arguments. *)
Theorem syncUser_keeps_invariants (db : DB) (args : User) :
  (forall d, In d (users db) -> In d (users (syncUser db args))) /\
  plans (syncUser db args) = plans db /\
  (uniqueClerkIds db -> uniqueClerkIds (syncUser db args)) /\
  (idsBelowNext db -> idsBelowNext (syncUser db args)).
Proof.
  destruct (syncUser_cases db args)
    as [[Heq _]|[Hu [Hp [Hn Hnone]]]].
  - rewrite Heq. auto.
  - split; [|split; [|split]].
    + intros d Hin. rewrite Hu. apply in_or_app. left. assumption.
    + exact Hp.
    + unfold uniqueClerkIds. rewrite Hu, map_app. cbn [map snd].
      intros Hnd.
      apply NoDup_app_remove_l with (l := []). cbn [app].
      apply NoDup_Add
        with (a := clerkId args) (l := map (fun d => clerkId (snd d)) (users db)).
      * clear. induction (map _ (users db)) as [|x l IH].
        -- constructor.
        -- cbn [app]. constructor. exact IH.
      * split; [assumption|].
        intros Hin. apply in_map_iff in Hin as [d [Hd Hin]].
        exact (Hnone d Hin Hd).
    + intros [Hbu Hbp]. split; rewrite Hn; intros d Hin.
      * rewrite Hu in Hin. apply in_app_or in Hin as [Hin|[<-|[]]].
        -- apply Hbu in Hin. lia.
        -- cbn [fst]. lia.
      * rewrite Hp in Hin. apply Hbp in Hin. lia.
Qed.

Lemma syncUser_keeps_invariants_witness :
  let db := Scenario.twoPlans in
  let db' := syncUser db (mkUser "user_9" "nine@example.org" "Nine" None) in
  uniqueClerkIds db /\ uniqueClerkIds db' /\ plans db' = plans db.
Proof.
  intros db db'.
  assert (uniqueClerkIds db) as Hu.
  { unfold uniqueClerkIds. simpl. constructor; [intros []|constructor]. }
  destruct (syncUser_keeps_invariants db
              (mkUser "user_9" "nine@example.org" "Nine" None))
    as [_ [Hp [Hunique _]]].
  split; [exact Hu|]. split; [exact (Hunique Hu)|exact Hp].
Defined.

(** After [syncUser] a user with the given [clerkId] is found, and a
    second [syncUser] with the same arguments changes nothing. *)
Theorem syncUser_then_found_and_stable (db : DB) (args : User) :
  (exists d,
     firstUserByClerkId (syncUser db args) (clerkId args) = Some d /\
     clerkId (snd d) = clerkId args) /\
  syncUser (syncUser db args) args = syncUser db args.
Proof.
  assert (exists d, In d (users (syncUser db args)) /\
                    clerkId (snd d) = clerkId args) as Hex.
  { destruct (syncUser_cases db args)
      as [[Heq Hex]|[Hu _]].
    - rewrite Heq. exact Hex.
    - exists (nextId db, args). split; [|reflexivity].
      rewrite Hu. apply in_or_app. right. left. reflexivity. }
  split.
  - destruct (firstUserByClerkId_Some _ _ Hex) as [d Hd].
    exists d. split; [exact Hd|].
    unfold firstUserByClerkId in Hd. apply find_some in Hd as [_ Hd].
    apply String.eqb_eq in Hd. exact Hd.
  - apply syncUser_existing. exact Hex.
Qed.

(** ** The [/clerk-webhook] action *)

Lemma prop_Get (v : value) (k : string) (x : value) :
  prop v k = x -> x <> VUndefined -> Get v k = Ok x.
Proof.
  intros H Hx. rewrite Get_prop; [rewrite H; reflexivity|].
  destruct v; try reflexivity; unfold prop in H; simpl in H; congruence.
Qed.

(** For a [user.created] event what the action does with the database is
    [syncUser] on arguments taken from the event, or nothing at all when
    reading the event or checking the arguments throws. *)
Lemma webhook_created_form (evt : value)
    (onUserUpdated : value -> DB -> result DB) :
  prop evt "type" = VStr "user.created" ->
  exists e : result User,
    forall db,
      ClerkWebhook.handler (Ok tt) (Ok evt) onUserUpdated db =
      match e with
      | Ok args =>
          Ok (ClerkWebhook.mkResponse 200 "Webhook processed",
              syncUser db args)
      | Throw => Throw
      end.
Proof.
  intros Ht. unfold ClerkWebhook.handler.
  rewrite (prop_Get evt "type" _ Ht) by discriminate.
  cbv beta iota delta [bind].
  change (ClerkWebhook.strictEqString (VStr "user.created") "user.created")
    with true.
  change (ClerkWebhook.strictEqString (VStr "user.created") "user.updated")
    with false.
  cbv beta iota.
  destruct (Get evt "data") as [data|]; [|exists Throw; reflexivity].
  destruct (Get data "id") as [id|]; [|exists Throw; reflexivity].
  destruct (Get data "email_addresses") as [addresses|];
    [|exists Throw; reflexivity].
  destruct (Get data "first_name") as [first_name|];
    [|exists Throw; reflexivity].
  destruct (Get data "image_url") as [image_url|];
    [|exists Throw; reflexivity].
  destruct (Index addresses 0) as [first|]; [|exists Throw; reflexivity].
  destruct (Get first "email_address") as [email|];
    [|exists Throw; reflexivity].
  unfold ClerkWebhook.runSyncUser. cbv beta iota delta [bind].
  destruct (ClerkWebhook.checkSyncUserArgs id email
              (or_ first_name (VStr "")) image_url) as [args|].
  - exists (Ok args). reflexivity.
  - exists Throw. reflexivity.
Qed.

(** Delivering a [user.created] webhook a second time changes nothing: the
    action answers as it did and the database stays as the first delivery
    left it. *)
Theorem webhook_redelivery_changes_nothing (evt : value)
    (onUserUpdated : value -> DB -> result DB)
    (db db1 : DB) (r : ClerkWebhook.Response) :
  prop evt "type" = VStr "user.created" ->
  ClerkWebhook.handler (Ok tt) (Ok evt) onUserUpdated db = Ok (r, db1) ->
  ClerkWebhook.handler (Ok tt) (Ok evt) onUserUpdated db1 = Ok (r, db1).
Proof.
  intros Ht H.
  destruct (webhook_created_form evt onUserUpdated Ht) as [[args|] He].
  - rewrite He in H. injection H as <- <-. rewrite He.
    destruct (syncUser_cases db args) as [[Heq Hex]|[Hu _]].
    + rewrite Heq. rewrite (syncUser_existing db args Hex). reflexivity.
    + rewrite (syncUser_existing (syncUser db args) args); [reflexivity|].
      exists (nextId db, args). split; [|reflexivity].
      rewrite Hu. apply in_or_app. right. left. reflexivity.
  - rewrite He in H. discriminate.
Qed.



Lemma webhook_redelivery_changes_nothing_witness :
  let evt :=
    ClerkWebhook.userCreated (VStr "user_7") (VStr "seven@example.org")
      (VStr "Seven") VUndefined in
  exists r db1,
    ClerkWebhook.handler (Ok tt) (Ok evt) (fun _ db => Ok db) Scenario.twoPlans
      = Ok (r, db1) /\
    ClerkWebhook.handler (Ok tt) (Ok evt) (fun _ db => Ok db) db1 = Ok (r, db1).
Proof.
  intros evt.
  assert (exists r db1,
            ClerkWebhook.handler (Ok tt) (Ok evt) (fun _ db => Ok db)
              Scenario.twoPlans = Ok (r, db1)) as [r [db1 H]].
  { eexists. eexists. vm_compute. reflexivity. }
  exists r, db1. split; [exact H|].
  apply (webhook_redelivery_changes_nothing evt (fun _ db => Ok db)
           Scenario.twoPlans db1 r eq_refl H).
Defined.

Lemma checkSyncUserArgs_null_image (a b c : value) :
  ClerkWebhook.checkSyncUserArgs a b c VNull = Throw.
Proof. destruct a, b, c; reflexivity. Qed.

(** A [user.created] event whose [email_addresses] is empty, or whose
    [image_url] is [null], makes the action throw outside its [try]: it
    gives no response and stores nothing. *)
Theorem webhook_malformed_user_created_throws (evt : value)
    (onUserUpdated : value -> DB -> result DB) (db : DB) :
  prop evt "type" = VStr "user.created" ->
  nullish (prop evt "data") = false ->
  prop (prop evt "data") "email_addresses" = VArr [] \/
  prop (prop evt "data") "image_url" = VNull ->
  ClerkWebhook.handler (Ok tt) (Ok evt) onUserUpdated db = Throw.
Proof.
  intros Ht Hdata Hbad. unfold ClerkWebhook.handler.
  rewrite (prop_Get evt "type" _ Ht) by discriminate.
  cbv beta iota delta [bind].
  change (ClerkWebhook.strictEqString (VStr "user.created") "user.created")
    with true.
  cbv beta iota.
  assert (nullish evt = false) as Hevt.
  { destruct evt; try reflexivity; discriminate Ht. }
  rewrite (Get_prop evt "data" Hevt).
  rewrite !(Get_prop (prop evt "data")) by assumption.
  destruct Hbad as [Hempty|Hnull].
  - rewrite Hempty. reflexivity.
  - rewrite Hnull.
    destruct (Index _ 0) as [first|]; [|reflexivity].
    destruct (Get first "email_address") as [email|]; [|reflexivity].
    unfold ClerkWebhook.runSyncUser.
    rewrite checkSyncUserArgs_null_image. reflexivity.
Qed.

Lemma webhook_malformed_user_created_throws_witness :
  ClerkWebhook.handler (Ok tt)
    (Ok (VObj [("type", VStr "user.created");
               ("data", VObj [("id", VStr "user_7");
                              ("email_addresses", VArr []);
                              ("first_name", VStr "Seven")])]))
    (fun _ db => Ok db) Scenario.twoPlans = Throw /\
  ClerkWebhook.handler (Ok tt)
    (Ok (ClerkWebhook.userCreated (VStr "user_7") (VStr "seven@example.org")
           (VStr "Seven") VNull))
    (fun _ db => Ok db) Scenario.twoPlans = Throw.
Proof.
  split.
  - apply webhook_malformed_user_created_throws;
      [reflexivity|reflexivity|left; reflexivity].
  - apply webhook_malformed_user_created_throws;
      [reflexivity|reflexivity|right; reflexivity].
Defined.

(** ** The [/vapi/generate-program] action: every run *)

Section ActionOutcomes.
Variable request_json : result value.
Variable generateContent : nat -> string -> result (result string).
Variable JSON_parse : string -> result value.

(** The try block throws before the mutation, after at most two model
    calls, or ends with the mutation and what the mutation gives. *)
Lemma tryBlock_outcomes (w : World) (out : result Response * World) :
  tryBlock request_json generateContent JSON_parse w = out ->
  (fst out = Throw /\ snd out = mkWorld (db w) (calls (snd out)) /\
   exists evs,
     calls (snd out) = (calls w ++ evs)%list /\
     forallb isGenerateContent evs = true /\
     (List.length evs <= 2)%nat)
  \/
  (exists p1 p2 args,
     arg_isActive args = VBool true /\
     out =
     match createPlan (db w) args with
     | Ok (id, db') =>
         (Ok (mkResponse 200 true (Some id)),
          mkWorld db'
            (calls w
               ++ [GenerateContent p1; GenerateContent p2;
                   RunCreatePlan args]))
     | Throw =>
         (Throw,
          mkWorld (db w)
            (calls w
               ++ [GenerateContent p1; GenerateContent p2;
                   RunCreatePlan args]))
     end).
Proof.
  intros H. unfold tryBlock in H.
  repeat (rewrite bindM_lift in H;
          match type of H with
          | match ?r with Ok _ => _ | Throw => _ end = _ =>
              destruct r eqn:?
          end;
          [|subst out; left; cbn [fst snd db calls];
            split; [reflexivity|]; split; [destruct w; reflexivity|];
            exists []; rewrite app_nil_r;
            split; [reflexivity|]; split; [reflexivity|simpl; lia]]).
  rewrite bindM_generate in H.
  match type of H with
  | match ?r with Ok _ => _ | Throw => _ end = _ => destruct r eqn:?
  end;
    [|subst out; left; cbn [fst snd db calls];
      split; [reflexivity|]; split; [reflexivity|];
      eexists; split; [reflexivity|]; split; [reflexivity|simpl; lia]].
  rewrite bindM_generate in H.
  match type of H with
  | match ?r with Ok _ => _ | Throw => _ end = _ => destruct r eqn:?
  end;
    [|subst out; left; cbn [fst snd db calls];
      split; [reflexivity|]; split; [reflexivity|];
      eexists; split; [rewrite <- app_assoc; reflexivity|];
      split; [reflexivity|simpl; lia]].
  repeat (rewrite bindM_lift in H;
          match type of H with
          | match ?r with Ok _ => _ | Throw => _ end = _ =>
              destruct r eqn:?
          end;
          [|subst out; left; cbn [fst snd db calls];
            split; [reflexivity|]; split; [reflexivity|];
            eexists; split; [rewrite <- app_assoc; reflexivity|];
            split; [reflexivity|simpl; lia]]).
  rewrite bindM_runCreatePlan in H. cbn [db calls] in H.
  rewrite <- !app_assoc in H. cbn [app] in H. unfold ret in H.
  right. do 3 eexists. split; [|symmetry; exact H]. reflexivity.
Qed.
End ActionOutcomes.

(** The answer tells what happened to the database: the action answers 200
    with an identifier exactly when it has added one plan, active and
    under that identifier, to the [plans] table, and otherwise answers 500
    and leaves the database as it was. *)
Theorem handler_answer_matches_database
    (request_json : result value)
    (generateContent : nat -> string -> result (result string))
    (JSON_parse : string -> result value) (w : World) :
  let out := handler request_json generateContent JSON_parse w in
  (exists plan,
     fst out = mkResponse 200 true (Some (nextId (db w))) /\
     isActive plan = true /\
     db (snd out)
     = mkDB (users (db w)) (plans (db w) ++ [(nextId (db w), plan)])
         (S (nextId (db w)))) \/
  (fst out = mkResponse 500 false None /\ db (snd out) = db w).
Proof.
  intros out. unfold out. rewrite handler_tryBlock. cbn [fst snd].
  destruct (tryBlock_outcomes request_json generateContent JSON_parse w _
              eq_refl)
    as [[Hres [Hw _]]|[p1 [p2 [args [Hact Hout]]]]].
  - right. rewrite Hres. split; [reflexivity|].
    rewrite Hw. reflexivity.
  - rewrite Hout.
    destruct (createPlan (db w) args) as [[id db']|] eqn:Hc.
    + left. destruct (createPlan_inv _ _ _ _ Hc)
        as [uid [n [act [_ [_ [Ha [_ [_ [-> ->]]]]]]]]].
      rewrite Hact in Ha. injection Ha as <-.
      eexists. cbn [fst snd db]. split; [reflexivity|].
      split; [|reflexivity]. reflexivity.
    + right. split; reflexivity.
Qed.

(** One run of the action calls the model at most twice and runs
    [createPlan] at most once, and only after both model calls. *)
Theorem handler_call_budget
    (request_json : result value)
    (generateContent : nat -> string -> result (result string))
    (JSON_parse : string -> result value) (w : World) :
  let out := handler request_json generateContent JSON_parse w in
  exists evs,
    calls (snd out) = (calls w ++ evs)%list /\
    ((forallb isGenerateContent evs = true /\ (List.length evs <= 2)%nat) \/
     exists p1 p2 args,
       evs = [GenerateContent p1; GenerateContent p2; RunCreatePlan args]).
Proof.
  intros out. unfold out. rewrite handler_tryBlock. cbn [fst snd].
  destruct (tryBlock_outcomes request_json generateContent JSON_parse w _
              eq_refl)
    as [[_ [_ [evs [Hevs [Hall Hlen]]]]]|[p1 [p2 [args [_ Hout]]]]].
  - exists evs. split; [exact Hevs|]. left. split; assumption.
  - rewrite Hout. eexists. split.
    + destruct (createPlan (db w) args) as [[id db']|]; reflexivity.
    + right. eauto.
Qed.

(** ** The [/vapi/generate-program] action: particular runs *)

(** A request body that cannot be read, or that is [null], is answered
    with 500 before anything else happens: the model is not called. *)
Theorem handler_rejects_unreadable_request
    (request_json : result value)
    (generateContent : nat -> string -> result (result string))
    (JSON_parse : string -> result value) (w : World) :
  request_json = Throw \/
  (exists v, request_json = Ok v /\ nullish v = true) ->
  handler request_json generateContent JSON_parse w
  = (mkResponse 500 false None, w).
Proof.
  intros [->|[v [-> Hv]]]; unfold handler, tryBlock; rewrite bindM_lift.
  - reflexivity.
  - cbv beta iota. rewrite bindM_lift.
    destruct v; try discriminate Hv; reflexivity.
Qed.

Lemma handler_rejects_unreadable_request_witness :
  handler (Ok VNull) Scenario.model Scenario.parse Scenario.emptyWorld
  = (mkResponse 500 false None, Scenario.emptyWorld).
Proof.
  apply handler_rejects_unreadable_request.
  right. exists VNull. split; reflexivity.
Defined.

Section ActionRuns.
Variable request_json : result value.
Variable generateContent : nat -> string -> result (result string).
Variable JSON_parse : string -> result value.
Variable w : World.
Variables payload : value.
Variables a g wt : string.
Hypothesis Hrequest : request_json = Ok payload.
Hypothesis Hpayload : nullish payload = false.
Hypothesis Hage : ToString (prop payload "age") = Ok a.
Hypothesis Hgoal : ToString (prop payload "fitness_goal") = Ok g.
Hypothesis Hweight : ToString (prop payload "weight") = Ok wt.

(** Up to the model calls. *)
Lemma handler_after_prompts :
  handler request_json generateContent JSON_parse w =
  (let (r0, w') :=
     (workoutResult <~
        callGenerateContent generateContent 0 (workoutPromptText a g wt) ;;
      dietResult <~
        callGenerateContent generateContent 1 (dietPromptText g) ;;
      workoutText <~ lift workoutResult ;;
      workoutJson <~ lift (JSON_parse workoutText) ;;
      workoutPlan <~ lift (validateWorkoutPlan workoutJson) ;;
      dietText <~ lift dietResult ;;
      dietJson <~ lift (JSON_parse dietText) ;;
      dietPlan <~ lift (validateDietPlan dietJson) ;;
      name <~ lift (Ok (g ++ " Plan")) ;;
      planId <~ runCreatePlan
                  (mkCreatePlanArgs (prop payload "user_id") (VStr name)
                     workoutPlan dietPlan (VBool true)) ;;
      ret (mkResponse 200 true (Some planId))) w in
   match r0 with
   | Ok r => (r, w')
   | Throw => (mkResponse 500 false None, w')
   end).
Proof.
  unfold handler, tryBlock.
  rewrite bindM_lift, Hrequest. cbv beta iota.
  do 4 (rewrite bindM_lift, (Get_prop payload) by assumption;
        cbv beta iota).
  rewrite bindM_lift, Hage, Hgoal, Hweight. simpl bind. cbv beta iota.
  rewrite bindM_lift. cbv beta iota. reflexivity.
Qed.

(** The diet call is made before the workout answer is looked at: when the
    workout text does not parse, the action has still called the model
    twice; it answers 500 and stores nothing. *)
Theorem handler_calls_twice_before_parsing (t1 : string) :
  generateContent 0 (workoutPromptText a g wt) = Ok (Ok t1) ->
  JSON_parse t1 = Throw ->
  handler request_json generateContent JSON_parse w
  = (mkResponse 500 false None,
     mkWorld (db w)
       (calls w
          ++ [GenerateContent (workoutPromptText a g wt);
              GenerateContent (dietPromptText g)])).
Proof.
  intros G1 P1. rewrite handler_after_prompts.
  rewrite bindM_generate, G1. cbv beta iota.
  rewrite bindM_generate. cbn [db calls]. rewrite <- app_assoc. cbn [app].
  destruct (generateContent 1 (dietPromptText g)) as [dietResult|];
    [|reflexivity].
  rewrite bindM_lift. cbv beta iota.
  rewrite bindM_lift, P1. reflexivity.
Qed.

Variables t1 t2 : string.
Variables j1 j2 wp dp : value.
Hypothesis G1 : generateContent 0 (workoutPromptText a g wt) = Ok (Ok t1).
Hypothesis G2 : generateContent 1 (dietPromptText g) = Ok (Ok t2).
Hypothesis P1 : JSON_parse t1 = Ok j1.
Hypothesis V1 : validateWorkoutPlan j1 = Ok wp.
Hypothesis P2 : JSON_parse t2 = Ok j2.
Hypothesis V2 : validateDietPlan j2 = Ok dp.

Let args : CreatePlanArgs :=
  mkCreatePlanArgs (prop payload "user_id") (VStr (g ++ " Plan")) wp dp
    (VBool true).

Let log : list Event :=
  (calls w
     ++ [GenerateContent (workoutPromptText a g wt);
         GenerateContent (dietPromptText g);
         RunCreatePlan args])%list.



End ActionRuns.

Lemma handler_calls_twice_before_parsing_witness :
  handler (Ok Scenario.payload) Scenario.modelChatty Scenario.parse
    Scenario.emptyWorld
  = (mkResponse 500 false None,
     mkWorld (db Scenario.emptyWorld)
       [GenerateContent (workoutPromptText "30" "strength" "80");
        GenerateContent (dietPromptText "strength")]).
Proof.
  apply (handler_calls_twice_before_parsing
           (Ok Scenario.payload) Scenario.modelChatty Scenario.parse
           Scenario.emptyWorld Scenario.payload "30" "strength" "80"
           eq_refl eq_refl eq_refl eq_refl eq_refl
           "Sure, here is your plan" eq_refl).
  vm_compute. reflexivity.
Defined.



(** ** Exactly when the validators return *)

Lemma ToString_plain (v : value) (out : string) :
  ToString v = Ok out -> plain v = true.
Proof.
  revert out. induction v using value_ind; intros out Hs; try reflexivity.
  - revert out Hs.
    induction H as [|x r Hx _ IH]; intros out Hs; [reflexivity|].
    rewrite ToString_cons in Hs.
    destruct (match x with
              | VUndefined | VNull => Ok ""
              | _ => ToString x
              end) as [a|] eqn:Ea; [|discriminate Hs].
    cbv beta iota delta [bind] in Hs.
    assert (plain x = true) as Hpx.
    { destruct x; try reflexivity; exact (Hx _ Ea). }
    simpl. rewrite Hpx. simpl.
    destruct r as [|y r']; [reflexivity|].
    destruct (ToString (VArr (y :: r'))) as [b|] eqn:Eb; [|discriminate Hs].
    exact (IH _ eq_refl).
  - simpl in *. destruct (hasOwn props "toString"); [discriminate|reflexivity].
Qed.

Lemma ToNumber_plain (v : value) (n : number) :
  ToNumber v = Ok n -> plain v = true.
Proof.
  destruct v; try reflexivity; unfold ToNumber; intros H;
    match type of H with
    | bind ?m _ = _ => destruct m as [str|] eqn:E; [|discriminate H]
    end; exact (ToString_plain _ _ E).
Qed.

Lemma or_plain (v : value) (d : string) :
  plain (or_ v (VStr d)) = true -> plain v = true.
Proof.
  unfold or_. destruct (truthy v) eqn:Ht; [auto|].
  intros _. destruct v; try reflexivity; discriminate Ht.
Qed.

Lemma mapM_plain {A : Type} (f : value -> result A) (l : list value)
    (l' : list A) :
  (forall x y, f x = Ok y -> plain x = true) ->
  mapM f l = Ok l' -> forallb plain l = true.
Proof.
  intros Hf H. apply mapM_Forall2 in H.
  induction H as [|x y r r' Hxy _ IH]; [reflexivity|].
  simpl. rewrite (Hf _ _ Hxy), IH. reflexivity.
Qed.

Lemma validateRoutine_returns_ok (r r' : value) :
  validateRoutine r = Ok r' -> routineInputOk r = true.
Proof.
  intros H.
  apply validateRoutine_inv in H
    as [Hn [name [s [p [d [ds [Hname [Hs [Hp [Hd [Hds _]]]]]]]]]]].
  unfold routineInputOk. rewrite Hn.
  rewrite (or_plain _ _ (ToString_plain _ _ Hname)).
  rewrite (ToNumber_plain _ _ Hs), (ToNumber_plain _ _ Hp),
    (ToNumber_plain _ _ Hd).
  rewrite (or_plain _ _ (ToString_plain _ _ Hds)). reflexivity.
Qed.

Lemma validateMeal_returns_ok (m m' : value) :
  validateMeal m = Ok m' -> mealInputOk m = true.
Proof.
  intros H.
  apply validateMeal_inv in H as [Hn [name [fs [ps [Hname [Hfs [Hps _]]]]]]].
  unfold mealInputOk. rewrite Hn.
  rewrite (or_plain _ _ (ToString_plain _ _ Hname)).
  rewrite (mapM_plain _ _ _ ToString_plain Hfs).
  rewrite (mapM_plain _ _ _ ToNumber_plain Hps). reflexivity.
Qed.

Lemma or_arrayOrFalsy (ok : value -> bool) (v : value) (l : list value) :
  or_ v (VArr []) = VArr l -> forallb ok l = true ->
  arrayOrFalsy ok v = true.
Proof.
  intros H Hl. unfold or_ in H. destruct (truthy v) eqn:Ht.
  - subst v. exact Hl.
  - destruct v; try discriminate Ht; unfold arrayOrFalsy; rewrite Ht;
      reflexivity.
Qed.

Lemma mapM_ok {A : Type} (f : value -> result A) (ok : value -> bool)
    (l : list value) (l' : list A) :
  (forall x y, f x = Ok y -> ok x = true) ->
  mapM f l = Ok l' -> forallb ok l = true.
Proof.
  intros Hf H. apply mapM_Forall2 in H.
  induction H as [|x y r r' Hxy _ IH]; [reflexivity|].
  simpl. rewrite (Hf _ _ Hxy), IH. reflexivity.
Qed.

Lemma validateExercise_returns_ok (ex ex' : value) :
  validateExercise ex = Ok ex' -> exerciseInputOk ex = true.
Proof.
  intros H.
  apply validateExercise_inv in H as [Hn [day [rs [rs' [Hd [Hor [Hm _]]]]]]].
  unfold exerciseInputOk. rewrite Hn.
  rewrite (or_plain _ _ (ToString_plain _ _ Hd)).
  rewrite (or_arrayOrFalsy _ _ _ Hor
             (mapM_ok _ _ _ _ validateRoutine_returns_ok Hm)).
  reflexivity.
Qed.

(** The validators return exactly on the inputs the two predicates
    describe, and throw on every other input. *)
Theorem validators_return_exactly_on_ok_inputs (x y : value) :
  (workoutInputOk x = true <-> exists p, validateWorkoutPlan x = Ok p) /\
  (workoutInputOk x = false <-> validateWorkoutPlan x = Throw) /\
  (dietInputOk y = true <-> exists q, validateDietPlan y = Ok q) /\
  (dietInputOk y = false <-> validateDietPlan y = Throw).
Proof.
  assert (workoutInputOk x = true <-> exists p, validateWorkoutPlan x = Ok p)
    as Hw.
  { split.
    - intros H. destruct (validateWorkoutPlan_total x H) as [p [Hp _]]. eauto.
    - intros [p Hp].
      apply validateWorkoutPlan_inv in Hp as [Hn [exs [exs' [Hor [Hm _]]]]].
      unfold workoutInputOk. rewrite Hn.
      rewrite (or_arrayOrFalsy _ _ _ Hor
                 (mapM_ok _ _ _ _ validateExercise_returns_ok Hm)).
      reflexivity. }
  assert (dietInputOk y = true <-> exists q, validateDietPlan y = Ok q)
    as Hd.
  { split.
    - intros H. destruct (validateDietPlan_total y H) as [q [c [_ [Hq _]]]].
      eauto.
    - intros [q Hq].
      apply validateDietPlan_inv in Hq
        as [Hn [c [ms [ms' [Hc [Hor [Hm _]]]]]]].
      unfold dietInputOk. rewrite Hn. rewrite (ToNumber_plain _ _ Hc).
      rewrite (or_arrayOrFalsy _ _ _ Hor
                 (mapM_ok _ _ _ _ validateMeal_returns_ok Hm)).
      reflexivity. }
  split; [exact Hw|]. split; [|split; [exact Hd|]].
  - destruct (validateWorkoutPlan x) as [p|] eqn:E.
    + split; [|discriminate]. intros H.
      assert (workoutInputOk x = true) by (apply Hw; eauto). congruence.
    + split; [reflexivity|]. intros _.
      destruct (workoutInputOk x) eqn:Ho; [|reflexivity].
      destruct (proj1 Hw eq_refl) as [p Hp]. discriminate.
  - destruct (validateDietPlan y) as [q|] eqn:E.
    + split; [|discriminate]. intros H.
      assert (dietInputOk y = true) by (apply Hd; eauto). congruence.
    + split; [reflexivity|]. intros _.
      destruct (dietInputOk y) eqn:Ho; [|reflexivity].
      destruct (proj1 Hd eq_refl) as [q Hq]. discriminate.
Qed.

(** ** The validators: every meal and every routine *)

Lemma Forall2_In_r {A B : Type} (R : A -> B -> Prop)
    (l : list A) (l' : list B) (y : B) :
  Forall2 R l l' -> In y l' -> exists x, In x l /\ R x y.
Proof.
  intros H. induction H as [|a b r r' Hab _ IH]; intros Hin.
  - destruct Hin.
  - destruct Hin as [<-|Hin].
    + exists a. split; [left; reflexivity|assumption].
    + destruct (IH Hin) as [x [Hx HR]]. exists x. split; [right|]; assumption.
Qed.

(** In whatever [validateDietPlan] returns, the [foods] and [protein] of
    the meal at a position are arrays: empty when what was given at that
    position is not an array, and otherwise as long as the array given,
    holding entry by entry the [String], respectively the [Number], of
    the entries given. *)
Theorem validateDietPlan_foods_and_protein (y q : value) :
  validateDietPlan y = Ok q ->
  forall (i : nat) (m : value),
    nth_error (elems (prop y "meals")) i = Some m ->
    exists m' foods protein,
      nth_error (elems (prop q "meals")) i = Some m' /\
      prop m' "foods" = VArr (map VStr foods) /\
      prop m' "protein" = VArr (map VNum protein) /\
      Forall2 (fun raw s => ToString raw = Ok s)
        (elems (prop m "foods")) foods /\
      Forall2 (fun raw n => ToNumber raw = Ok n)
        (elems (prop m "protein")) protein /\
      (isArray (prop m "foods") = false -> prop m' "foods" = VArr []) /\
      (isArray (prop m "protein") = false -> prop m' "protein" = VArr []).
Proof.
  intros Hq i m Hi.
  destruct (validateDietPlan_meal_at _ _ _ _ Hq Hi) as [m' [Hi' Hm]].
  destruct (validateMeal_inv _ _ Hm) as [_ [name [fs [ps [_ [Hfs [Hps ->]]]]]]].
  eexists. exists fs, ps.
  split; [exact Hi'|]. split; [reflexivity|]. split; [reflexivity|].
  split; [apply mapM_Forall2; assumption|].
  split; [apply mapM_Forall2; assumption|].
  split; intros Ha.
  - destruct (prop m "foods"); try discriminate;
      injection Hfs as <-; reflexivity.
  - destruct (prop m "protein"); try discriminate;
      injection Hps as <-; reflexivity.
Qed.

Lemma validateDietPlan_foods_and_protein_witness :
  let y :=
    VObj [("meals",
           VArr [VObj [("foods", VArr [VNum (ofZ 2); VStr "Eggs"; VBool true]);
                       ("protein", VStr "12")]])] in
  exists q m',
    validateDietPlan y = Ok q /\
    nth_error (elems (prop q "meals")) 0 = Some m' /\
    prop m' "foods" = VArr [VStr "2"; VStr "Eggs"; VStr "true"] /\
    prop m' "protein" = VArr [].
Proof.
  intros y.
  assert (exists q, validateDietPlan y = Ok q) as [q Hq]
    by (eexists; vm_compute; reflexivity).
  destruct (validateDietPlan_foods_and_protein y q Hq 0%nat _ eq_refl)
    as [m' [fs [ps [Hm [Hf [_ [Hfs [_ [_ Hp]]]]]]]]].
  exists q, m'. split; [exact Hq|]. split; [exact Hm|].
  split; [|apply Hp; reflexivity].
  rewrite Hf. apply mapM_Forall2 in Hfs. vm_compute in Hfs.
  injection Hfs as <-. reflexivity.
Defined.

(** In whatever [validateWorkoutPlan] returns, the [sets], [reps] and
    [duration] of every routine of every exercise are numbers that are
    neither [NaN] nor zero. *)
Theorem validateWorkoutPlan_numbers_never_falsy (x p ex' r' : value) :
  validateWorkoutPlan x = Ok p ->
  In ex' (elems (prop p "exercises")) ->
  In r' (elems (prop ex' "routines")) ->
  exists sets reps duration,
    prop r' "sets" = VNum sets /\
    prop r' "reps" = VNum reps /\
    prop r' "duration" = VNum duration /\
    truthy (VNum sets) = true /\
    truthy (VNum reps) = true /\
    truthy (VNum duration) = true.
Proof.
  intros Hp Hex Hr.
  destruct (Forall2_In_r _ _ _ _ (validateWorkoutPlan_exercises _ _ Hp) Hex)
    as [ex [_ Hvex]].
  destruct (Forall2_In_r _ _ _ _ (validateExercise_routines _ _ Hvex) Hr)
    as [r [_ Hvr]].
  destruct (validateRoutine_inv _ _ Hvr)
    as [_ [name [s [n [d [ds [_ [_ [_ [_ [_ ->]]]]]]]]]]].
  exists (numberOr s (ofZ 1)), (numberOr n (ofZ 10)), (numberOr d (ofZ 15)).
  repeat (split; [reflexivity|]).
  unfold truthy. rewrite !numberOr_truthy by reflexivity. auto.
Qed.

Lemma validateWorkoutPlan_numbers_never_falsy_witness :
  let x :=
    VObj [("exercises",
           VArr [VObj [("routines",
                        VArr [VObj [("sets", VNum (ofZ 0));
                                    ("reps", VStr "abc");
                                    ("duration", VBool false)]])]])] in
  exists p ex' r' sets reps duration,
    validateWorkoutPlan x = Ok p /\
    elems (prop p "exercises") = [ex'] /\
    elems (prop ex' "routines") = [r'] /\
    prop r' "sets" = VNum sets /\
    prop r' "reps" = VNum reps /\
    prop r' "duration" = VNum duration /\
    truthy (VNum sets) = true /\
    truthy (VNum reps) = true /\
    truthy (VNum duration) = true.
Proof.
  intros x.
  assert (exists p ex' r',
            validateWorkoutPlan x = Ok p /\
            elems (prop p "exercises") = [ex'] /\
            elems (prop ex' "routines") = [r']) as [p [ex' [r' [Hp [He Hr]]]]].
  { do 3 eexists. split; [vm_compute; reflexivity|].
    split; vm_compute; reflexivity. }
  destruct (validateWorkoutPlan_numbers_never_falsy x p ex' r' Hp)
    as [s [n [d H]]].
  - rewrite He. left. reflexivity.
  - rewrite Hr. left. reflexivity.
  - exists p, ex', r', s, n, d.
    split; [exact Hp|]. split; [exact He|]. split; [exact Hr|]. exact H.
Defined.

Lemma falsy_or (v d : value) : truthy v = false -> or_ v d = d.
Proof. intros H. unfold or_. rewrite H. reflexivity. Qed.

(** In whatever [validateWorkoutPlan] returns, a [day] or a [description]
    given as any falsy value (absent, [null], [false], 0, [NaN] or the
    empty string) has become [Unknown], respectively [No description]. *)
Theorem validateWorkoutPlan_falsy_day_and_description (x p : value) :
  validateWorkoutPlan x = Ok p ->
  forall (i : nat) (ex : value),
    nth_error (elems (prop x "exercises")) i = Some ex ->
    exists ex',
      nth_error (elems (prop p "exercises")) i = Some ex' /\
      (truthy (prop ex "day") = false -> prop ex' "day" = VStr "Unknown") /\
      forall (j : nat) (r : value),
        nth_error (elems (prop ex "routines")) j = Some r ->
        truthy (prop r "description") = false ->
        exists r',
          nth_error (elems (prop ex' "routines")) j = Some r' /\
          prop r' "description" = VStr "No description".
Proof.
  intros Hp i ex Hi.
  destruct (Forall2_nth_error_l _ _ _ _ _
              (validateWorkoutPlan_exercises _ _ Hp) Hi) as [ex' [Hi' Hex]].
  exists ex'. split; [exact Hi'|]. split.
  - intros Hf.
    destruct (validateExercise_inv _ _ Hex)
      as [_ [day [rs [rs' [Hd [_ [_ ->]]]]]]].
    rewrite (falsy_or _ _ Hf) in Hd. injection Hd as <-. reflexivity.
  - intros j r Hj Hf.
    destruct (Forall2_nth_error_l _ _ _ _ _
                (validateExercise_routines _ _ Hex) Hj) as [r' [Hj' Hr]].
    exists r'. split; [exact Hj'|].
    apply validateRoutine_inv in Hr
      as [_ [name [s [n [d [ds [_ [_ [_ [_ [Hds ->]]]]]]]]]]].
    rewrite (falsy_or _ _ Hf) in Hds. injection Hds as <-. reflexivity.
Qed.

Lemma validateWorkoutPlan_falsy_day_and_description_witness :
  let x :=
    VObj [("exercises",
           VArr [VObj [("day", VNum (ofZ 0));
                       ("routines",
                        VArr [VObj [("description", VBool false)]])]])] in
  exists p ex' r',
    validateWorkoutPlan x = Ok p /\
    nth_error (elems (prop p "exercises")) 0 = Some ex' /\
    prop ex' "day" = VStr "Unknown" /\
    nth_error (elems (prop ex' "routines")) 0 = Some r' /\
    prop r' "description" = VStr "No description".
Proof.
  intros x.
  assert (exists p, validateWorkoutPlan x = Ok p) as [p Hp]
    by (eexists; vm_compute; reflexivity).
  destruct (validateWorkoutPlan_falsy_day_and_description x p Hp 0%nat _
              eq_refl) as [ex' [Hi [Hday Hdesc]]].
  destruct (Hdesc 0%nat _ eq_refl eq_refl) as [r' [Hj Hd]].
  exists p, ex', r'. split; [exact Hp|]. split; [exact Hi|].
  split; [apply Hday; reflexivity|]. split; assumption.
Defined.
